(* ===================================================================== *)
(* AI-Powered-Resume-Analyzer: a shallow embedding of src/app.py         *)
(*                                                                       *)
(*   select_supported_model  (app.py 70-103)                             *)
(*   extract_text_from_pdf   (app.py 419-444)                            *)
(*   analyze_resume          (app.py 447-546)                            *)
(*   the API key at start-up and its preview  (app.py 13-29, 587-601)    *)
(*   the analysis section of the page         (app.py 749-795)           *)
(*                                                                       *)
(* A Python str is modelled as the list of its code points.  str.strip,  *)
(* str.lower, len and slicing work on code points, with the white space  *)
(* and the case mapping of the interpreter's Unicode tables.  A literal  *)
(* of the source is written as it stands there and read as UTF-8.        *)
(* ===================================================================== *)

From Stdlib Require Import String Ascii List Bool Arith NArith Lia.
From stdpp Require Import base option gmap strings.

Local Open Scope string_scope.

(* s + t on str values *)
Declare Scope pystr_scope.
Infix "+:+" := (@app N) (at level 60, right associativity) : pystr_scope.
Local Open Scope pystr_scope.

(* --------------------------------------------------------------------- *)
(* 0. The character tables behind str.lower and str.strip                *)
(* --------------------------------------------------------------------- *)
(* A Python str is a sequence of code points.  What str.isspace,         *)
(* str.strip and str.lower do with one code point is read from the       *)
(* Unicode database built into the interpreter (version 14.0 in Python   *)
(* 3.11); the tables below hold it as inclusive ranges of code points.   *)

Module Unicode.

Local Open Scope N_scope.

(* the code points str.isspace accepts and str.strip removes *)
Definition white_space : list (N * N) :=
  [ (9, 13); (28, 32); (133, 133); (160, 160); (5760, 5760); (8192, 8202);
    (8232, 8233); (8239, 8239); (8287, 8287); (12288, 12288) ].

(* Case_Ignorable: the code points the final-sigma rule skips *)
Definition case_ignorable : list (N * N) :=
  [ (39, 39); (46, 46); (58, 58); (94, 94); (96, 96); (168, 168);
    (173, 173); (175, 175); (180, 180); (183, 184); (688, 879); (884, 885);
    (890, 890); (900, 901); (903, 903); (1155, 1161); (1369, 1369); (1375, 1375);
    (1425, 1469); (1471, 1471); (1473, 1474); (1476, 1477); (1479, 1479); (1524, 1524);
    (1536, 1541); (1552, 1562); (1564, 1564); (1600, 1600); (1611, 1631); (1648, 1648);
    (1750, 1757); (1759, 1768); (1770, 1773); (1807, 1807); (1809, 1809); (1840, 1866);
    (1958, 1968); (2027, 2037); (2042, 2042); (2045, 2045); (2070, 2093); (2137, 2139);
    (2184, 2184); (2192, 2193); (2200, 2207); (2249, 2306); (2362, 2362); (2364, 2364);
    (2369, 2376); (2381, 2381); (2385, 2391); (2402, 2403); (2417, 2417); (2433, 2433);
    (2492, 2492); (2497, 2500); (2509, 2509); (2530, 2531); (2558, 2558); (2561, 2562);
    (2620, 2620); (2625, 2626); (2631, 2632); (2635, 2637); (2641, 2641); (2672, 2673);
    (2677, 2677); (2689, 2690); (2748, 2748); (2753, 2757); (2759, 2760); (2765, 2765);
    (2786, 2787); (2810, 2815); (2817, 2817); (2876, 2876); (2879, 2879); (2881, 2884);
    (2893, 2893); (2901, 2902); (2914, 2915); (2946, 2946); (3008, 3008); (3021, 3021);
    (3072, 3072); (3076, 3076); (3132, 3132); (3134, 3136); (3142, 3144); (3146, 3149);
    (3157, 3158); (3170, 3171); (3201, 3201); (3260, 3260); (3263, 3263); (3270, 3270);
    (3276, 3277); (3298, 3299); (3328, 3329); (3387, 3388); (3393, 3396); (3405, 3405);
    (3426, 3427); (3457, 3457); (3530, 3530); (3538, 3540); (3542, 3542); (3633, 3633);
    (3636, 3642); (3654, 3662); (3761, 3761); (3764, 3772); (3782, 3782); (3784, 3789);
    (3864, 3865); (3893, 3893); (3895, 3895); (3897, 3897); (3953, 3966); (3968, 3972);
    (3974, 3975); (3981, 3991); (3993, 4028); (4038, 4038); (4141, 4144); (4146, 4151);
    (4153, 4154); (4157, 4158); (4184, 4185); (4190, 4192); (4209, 4212); (4226, 4226);
    (4229, 4230); (4237, 4237); (4253, 4253); (4348, 4348); (4957, 4959); (5906, 5908);
    (5938, 5939); (5970, 5971); (6002, 6003); (6068, 6069); (6071, 6077); (6086, 6086);
    (6089, 6099); (6103, 6103); (6109, 6109); (6155, 6159); (6211, 6211); (6277, 6278);
    (6313, 6313); (6432, 6434); (6439, 6440); (6450, 6450); (6457, 6459); (6679, 6680);
    (6683, 6683); (6742, 6742); (6744, 6750); (6752, 6752); (6754, 6754); (6757, 6764);
    (6771, 6780); (6783, 6783); (6823, 6823); (6832, 6862); (6912, 6915); (6964, 6964);
    (6966, 6970); (6972, 6972); (6978, 6978); (7019, 7027); (7040, 7041); (7074, 7077);
    (7080, 7081); (7083, 7085); (7142, 7142); (7144, 7145); (7149, 7149); (7151, 7153);
    (7212, 7219); (7222, 7223); (7288, 7293); (7376, 7378); (7380, 7392); (7394, 7400);
    (7405, 7405); (7412, 7412); (7416, 7417); (7468, 7530); (7544, 7544); (7579, 7679);
    (8125, 8125); (8127, 8129); (8141, 8143); (8157, 8159); (8173, 8175); (8189, 8190);
    (8203, 8207); (8216, 8217); (8228, 8228); (8231, 8231); (8234, 8238); (8288, 8292);
    (8294, 8303); (8305, 8305); (8319, 8319); (8336, 8348); (8400, 8432); (11388, 11389);
    (11503, 11505); (11631, 11631); (11647, 11647); (11744, 11775); (11823, 11823); (12293, 12293);
    (12330, 12333); (12337, 12341); (12347, 12347); (12441, 12446); (12540, 12542); (40981, 40981);
    (42232, 42237); (42508, 42508); (42607, 42610); (42612, 42621); (42623, 42623); (42652, 42655);
    (42736, 42737); (42752, 42785); (42864, 42864); (42888, 42890); (42994, 42996); (43000, 43001);
    (43010, 43010); (43014, 43014); (43019, 43019); (43045, 43046); (43052, 43052); (43204, 43205);
    (43232, 43249); (43263, 43263); (43302, 43309); (43335, 43345); (43392, 43394); (43443, 43443);
    (43446, 43449); (43452, 43453); (43471, 43471); (43493, 43494); (43561, 43566); (43569, 43570);
    (43573, 43574); (43587, 43587); (43596, 43596); (43632, 43632); (43644, 43644); (43696, 43696);
    (43698, 43700); (43703, 43704); (43710, 43711); (43713, 43713); (43741, 43741); (43756, 43757);
    (43763, 43764); (43766, 43766); (43867, 43871); (43881, 43883); (44005, 44005); (44008, 44008);
    (44013, 44013); (64286, 64286); (64434, 64450); (65024, 65039); (65043, 65043); (65056, 65071);
    (65106, 65106); (65109, 65109); (65279, 65279); (65287, 65287); (65294, 65294); (65306, 65306);
    (65342, 65342); (65344, 65344); (65392, 65392); (65438, 65439); (65507, 65507); (65529, 65531);
    (66045, 66045); (66272, 66272); (66422, 66426); (67456, 67461); (67463, 67504); (67506, 67514);
    (68097, 68099); (68101, 68102); (68108, 68111); (68152, 68154); (68159, 68159); (68325, 68326);
    (68900, 68903); (69291, 69292); (69446, 69456); (69506, 69509); (69633, 69633); (69688, 69702);
    (69744, 69744); (69747, 69748); (69759, 69761); (69811, 69814); (69817, 69818); (69821, 69821);
    (69826, 69826); (69837, 69837); (69888, 69890); (69927, 69931); (69933, 69940); (70003, 70003);
    (70016, 70017); (70070, 70078); (70089, 70092); (70095, 70095); (70191, 70193); (70196, 70196);
    (70198, 70199); (70206, 70206); (70367, 70367); (70371, 70378); (70400, 70401); (70459, 70460);
    (70464, 70464); (70502, 70508); (70512, 70516); (70712, 70719); (70722, 70724); (70726, 70726);
    (70750, 70750); (70835, 70840); (70842, 70842); (70847, 70848); (70850, 70851); (71090, 71093);
    (71100, 71101); (71103, 71104); (71132, 71133); (71219, 71226); (71229, 71229); (71231, 71232);
    (71339, 71339); (71341, 71341); (71344, 71349); (71351, 71351); (71453, 71455); (71458, 71461);
    (71463, 71467); (71727, 71735); (71737, 71738); (71995, 71996); (71998, 71998); (72003, 72003);
    (72148, 72151); (72154, 72155); (72160, 72160); (72193, 72202); (72243, 72248); (72251, 72254);
    (72263, 72263); (72273, 72278); (72281, 72283); (72330, 72342); (72344, 72345); (72752, 72758);
    (72760, 72765); (72767, 72767); (72850, 72871); (72874, 72880); (72882, 72883); (72885, 72886);
    (73009, 73014); (73018, 73018); (73020, 73021); (73023, 73029); (73031, 73031); (73104, 73105);
    (73109, 73109); (73111, 73111); (73459, 73460); (78896, 78904); (92912, 92916); (92976, 92982);
    (92992, 92995); (94031, 94031); (94095, 94111); (94176, 94177); (94179, 94180); (110576, 110579);
    (110581, 110587); (110589, 110590); (113821, 113822); (113824, 113827); (118528, 118573); (118576, 118598);
    (119143, 119145); (119155, 119170); (119173, 119179); (119210, 119213); (119362, 119364); (121344, 121398);
    (121403, 121452); (121461, 121461); (121476, 121476); (121499, 121503); (121505, 121519); (122880, 122886);
    (122888, 122904); (122907, 122913); (122915, 122916); (122918, 122922); (123184, 123197); (123566, 123566);
    (123628, 123631); (125136, 125142); (125252, 125259); (127995, 127999); (917505, 917505); (917536, 917631);
    (917760, 917999) ].

(* Cased, among the code points that are not in case_ignorable *)
Definition cased : list (N * N) :=
  [ (65, 90); (97, 122); (170, 170); (181, 181); (186, 186); (192, 214);
    (216, 246); (248, 442); (444, 447); (452, 659); (661, 687); (880, 883);
    (886, 887); (891, 893); (895, 895); (902, 902); (904, 906); (908, 908);
    (910, 929); (931, 1013); (1015, 1153); (1162, 1327); (1329, 1366); (1376, 1416);
    (4256, 4293); (4295, 4295); (4301, 4301); (4304, 4346); (4349, 4351); (5024, 5109);
    (5112, 5117); (7296, 7304); (7312, 7354); (7357, 7359); (7424, 7467); (7531, 7543);
    (7545, 7578); (7680, 7957); (7960, 7965); (7968, 8005); (8008, 8013); (8016, 8023);
    (8025, 8025); (8027, 8027); (8029, 8029); (8031, 8061); (8064, 8116); (8118, 8124);
    (8126, 8126); (8130, 8132); (8134, 8140); (8144, 8147); (8150, 8155); (8160, 8172);
    (8178, 8180); (8182, 8188); (8450, 8450); (8455, 8455); (8458, 8467); (8469, 8469);
    (8473, 8477); (8484, 8484); (8486, 8486); (8488, 8488); (8490, 8493); (8495, 8500);
    (8505, 8505); (8508, 8511); (8517, 8521); (8526, 8526); (8544, 8575); (8579, 8580);
    (9398, 9449); (11264, 11387); (11390, 11492); (11499, 11502); (11506, 11507); (11520, 11557);
    (11559, 11559); (11565, 11565); (42560, 42605); (42624, 42651); (42786, 42863); (42865, 42887);
    (42891, 42894); (42896, 42954); (42960, 42961); (42963, 42963); (42965, 42969); (42997, 42998);
    (43002, 43002); (43824, 43866); (43872, 43880); (43888, 43967); (64256, 64262); (64275, 64279);
    (65313, 65338); (65345, 65370); (66560, 66639); (66736, 66771); (66776, 66811); (66928, 66938);
    (66940, 66954); (66956, 66962); (66964, 66965); (66967, 66977); (66979, 66993); (66995, 67001);
    (67003, 67004); (68736, 68786); (68800, 68850); (71840, 71903); (93760, 93823); (119808, 119892);
    (119894, 119964); (119966, 119967); (119970, 119970); (119973, 119974); (119977, 119980); (119982, 119993);
    (119995, 119995); (119997, 120003); (120005, 120069); (120071, 120074); (120077, 120084); (120086, 120092);
    (120094, 120121); (120123, 120126); (120128, 120132); (120134, 120134); (120138, 120144); (120146, 120485);
    (120488, 120512); (120514, 120538); (120540, 120570); (120572, 120596); (120598, 120628); (120630, 120654);
    (120656, 120686); (120688, 120712); (120714, 120744); (120746, 120770); (120772, 120779); (122624, 122633);
    (122635, 122654); (125184, 125251); (127280, 127305); (127312, 127337); (127344, 127369) ].

(* The lowercase mapping of the code points it changes, U+0130 and U+03A3
   apart: (first, last, step, image of first); the code points first,
   first + step, ..., last are mapped by the same shift. *)
Definition lowercase : list (N * N * N * N) :=
  [ (65, 90, 1, 97); (192, 214, 1, 224); (216, 222, 1, 248); (256, 302, 2, 257);
    (306, 310, 2, 307); (313, 327, 2, 314); (330, 374, 2, 331); (376, 376, 1, 255);
    (377, 381, 2, 378); (385, 385, 1, 595); (386, 388, 2, 387); (390, 390, 1, 596);
    (391, 391, 1, 392); (393, 394, 1, 598); (395, 395, 1, 396); (398, 398, 1, 477);
    (399, 399, 1, 601); (400, 400, 1, 603); (401, 401, 1, 402); (403, 403, 1, 608);
    (404, 404, 1, 611); (406, 406, 1, 617); (407, 407, 1, 616); (408, 408, 1, 409);
    (412, 412, 1, 623); (413, 413, 1, 626); (415, 415, 1, 629); (416, 420, 2, 417);
    (422, 422, 1, 640); (423, 423, 1, 424); (425, 425, 1, 643); (428, 428, 1, 429);
    (430, 430, 1, 648); (431, 431, 1, 432); (433, 434, 1, 650); (435, 437, 2, 436);
    (439, 439, 1, 658); (440, 440, 1, 441); (444, 444, 1, 445); (452, 452, 1, 454);
    (453, 453, 1, 454); (455, 455, 1, 457); (456, 456, 1, 457); (458, 458, 1, 460);
    (459, 475, 2, 460); (478, 494, 2, 479); (497, 497, 1, 499); (498, 500, 2, 499);
    (502, 502, 1, 405); (503, 503, 1, 447); (504, 542, 2, 505); (544, 544, 1, 414);
    (546, 562, 2, 547); (570, 570, 1, 11365); (571, 571, 1, 572); (573, 573, 1, 410);
    (574, 574, 1, 11366); (577, 577, 1, 578); (579, 579, 1, 384); (580, 580, 1, 649);
    (581, 581, 1, 652); (582, 590, 2, 583); (880, 882, 2, 881); (886, 886, 1, 887);
    (895, 895, 1, 1011); (902, 902, 1, 940); (904, 906, 1, 941); (908, 908, 1, 972);
    (910, 911, 1, 973); (913, 929, 1, 945); (932, 939, 1, 964); (975, 975, 1, 983);
    (984, 1006, 2, 985); (1012, 1012, 1, 952); (1015, 1015, 1, 1016); (1017, 1017, 1, 1010);
    (1018, 1018, 1, 1019); (1021, 1023, 1, 891); (1024, 1039, 1, 1104); (1040, 1071, 1, 1072);
    (1120, 1152, 2, 1121); (1162, 1214, 2, 1163); (1216, 1216, 1, 1231); (1217, 1229, 2, 1218);
    (1232, 1326, 2, 1233); (1329, 1366, 1, 1377); (4256, 4293, 1, 11520); (4295, 4295, 1, 11559);
    (4301, 4301, 1, 11565); (5024, 5103, 1, 43888); (5104, 5109, 1, 5112); (7312, 7354, 1, 4304);
    (7357, 7359, 1, 4349); (7680, 7828, 2, 7681); (7838, 7838, 1, 223); (7840, 7934, 2, 7841);
    (7944, 7951, 1, 7936); (7960, 7965, 1, 7952); (7976, 7983, 1, 7968); (7992, 7999, 1, 7984);
    (8008, 8013, 1, 8000); (8025, 8031, 2, 8017); (8040, 8047, 1, 8032); (8072, 8079, 1, 8064);
    (8088, 8095, 1, 8080); (8104, 8111, 1, 8096); (8120, 8121, 1, 8112); (8122, 8123, 1, 8048);
    (8124, 8124, 1, 8115); (8136, 8139, 1, 8050); (8140, 8140, 1, 8131); (8152, 8153, 1, 8144);
    (8154, 8155, 1, 8054); (8168, 8169, 1, 8160); (8170, 8171, 1, 8058); (8172, 8172, 1, 8165);
    (8184, 8185, 1, 8056); (8186, 8187, 1, 8060); (8188, 8188, 1, 8179); (8486, 8486, 1, 969);
    (8490, 8490, 1, 107); (8491, 8491, 1, 229); (8498, 8498, 1, 8526); (8544, 8559, 1, 8560);
    (8579, 8579, 1, 8580); (9398, 9423, 1, 9424); (11264, 11311, 1, 11312); (11360, 11360, 1, 11361);
    (11362, 11362, 1, 619); (11363, 11363, 1, 7549); (11364, 11364, 1, 637); (11367, 11371, 2, 11368);
    (11373, 11373, 1, 593); (11374, 11374, 1, 625); (11375, 11375, 1, 592); (11376, 11376, 1, 594);
    (11378, 11378, 1, 11379); (11381, 11381, 1, 11382); (11390, 11391, 1, 575); (11392, 11490, 2, 11393);
    (11499, 11501, 2, 11500); (11506, 11506, 1, 11507); (42560, 42604, 2, 42561); (42624, 42650, 2, 42625);
    (42786, 42798, 2, 42787); (42802, 42862, 2, 42803); (42873, 42875, 2, 42874); (42877, 42877, 1, 7545);
    (42878, 42886, 2, 42879); (42891, 42891, 1, 42892); (42893, 42893, 1, 613); (42896, 42898, 2, 42897);
    (42902, 42920, 2, 42903); (42922, 42922, 1, 614); (42923, 42923, 1, 604); (42924, 42924, 1, 609);
    (42925, 42925, 1, 620); (42926, 42926, 1, 618); (42928, 42928, 1, 670); (42929, 42929, 1, 647);
    (42930, 42930, 1, 669); (42931, 42931, 1, 43859); (42932, 42946, 2, 42933); (42948, 42948, 1, 42900);
    (42949, 42949, 1, 642); (42950, 42950, 1, 7566); (42951, 42953, 2, 42952); (42960, 42960, 1, 42961);
    (42966, 42968, 2, 42967); (42997, 42997, 1, 42998); (65313, 65338, 1, 65345); (66560, 66599, 1, 66600);
    (66736, 66771, 1, 66776); (66928, 66938, 1, 66967); (66940, 66954, 1, 66979); (66956, 66962, 1, 66995);
    (66964, 66965, 1, 67003); (68736, 68786, 1, 68800); (71840, 71871, 1, 71872); (93760, 93791, 1, 93792);
    (125184, 125217, 1, 125218) ].

Definition in_ranges (table : list (N * N)) (c : N) : bool :=
  existsb (fun r => (fst r <=? c) && (c <=? snd r)) table.

Fixpoint shifted (table : list (N * N * N * N)) (c : N) : N :=
  match table with
  | [] => c
  | (first, last, step, image) :: rest =>
      if (first <=? c) && (c <=? last) && ((c - first) mod step =? 0)
      then image + (c - first)
      else shifted rest c
  end.

End Unicode.

(* --------------------------------------------------------------------- *)
(* 1. Python string primitives used by the source                        *)
(* --------------------------------------------------------------------- *)

Module PyStr.

Import Unicode.

(* a str: its code points, in order *)
Abbreviation str := (list N).

(* A literal of the source, from its UTF-8 bytes.  (A byte sequence that
   is not UTF-8 does not occur in a literal; its first byte is kept.) *)
Fixpoint utf8 (s : string) : str :=
  match s with
  | EmptyString => []
  | String b0 rest =>
      let v0 := N_of_ascii b0 in
      if (v0 <? 128)%N then v0 :: utf8 rest
      else if (v0 <? 224)%N then
        match rest with
        | String b1 r =>
            ((v0 - 192) * 64 + (N_of_ascii b1 - 128))%N :: utf8 r
        | _ => [v0]
        end
      else if (v0 <? 240)%N then
        match rest with
        | String b1 (String b2 r) =>
            ((v0 - 224) * 4096 + (N_of_ascii b1 - 128) * 64
             + (N_of_ascii b2 - 128))%N :: utf8 r
        | _ => [v0]
        end
      else
        match rest with
        | String b1 (String b2 (String b3 r)) =>
            ((v0 - 240) * 262144 + (N_of_ascii b1 - 128) * 4096
             + (N_of_ascii b2 - 128) * 64 + (N_of_ascii b3 - 128))%N
            :: utf8 r
        | _ => [v0]
        end
  end.

Coercion utf8 : string >-> list.

(* a list of literals *)
Definition strs (l : list string) : list str := map utf8 l.

(* chr(10), the line separator of every multi-line literal of the source *)
Definition nl : str := [10%N].

(* U+03A3, the capital sigma, and its two lowercase forms *)
Definition capital_sigma : N := 931.
Definition final_sigma : N := 962.
Definition small_sigma : N := 963.

Definition is_case_ignorable (c : N) : bool := in_ranges case_ignorable c.

(* asked only about code points that are not case-ignorable *)
Definition is_cased (c : N) : bool := in_ranges cased c.

(* the lowercase form of one code point other than the capital sigma;
   U+0130 is the one code point with a form of two code points *)
Definition to_lower_full (c : N) : str :=
  if (c =? 304)%N then [105%N; 775%N] else [shifted lowercase c].

(* is the first code point after the case-ignorable ones cased? *)
Fixpoint next_cased (s : str) : bool :=
  match s with
  | [] => false
  | c :: rest => if is_case_ignorable c then next_cased rest else is_cased c
  end.

(* s.lower(), from a position where prev_cased tells whether the last
   code point before it that is not case-ignorable is cased.  A capital
   sigma becomes the final sigma when such a cased code point precedes
   it and none follows it, and the small sigma otherwise. *)
Fixpoint lower_from (prev_cased : bool) (s : str) : str :=
  match s with
  | [] => []
  | c :: rest =>
      (if (c =? capital_sigma)%N
       then [if prev_cased && negb (next_cased rest)
             then final_sigma else small_sigma]
       else to_lower_full c)
      ++ lower_from (if is_case_ignorable c then prev_cased else is_cased c)
           rest
  end.

(* s.lower() *)
Definition lower (s : str) : str := lower_from false s.

(* what lower_from knows of the code points before it, once s is read *)
Fixpoint state_after (prev_cased : bool) (s : str) : bool :=
  match s with
  | [] => prev_cased
  | c :: rest =>
      state_after (if is_case_ignorable c then prev_cased else is_cased c)
        rest
  end.

(* a code point that s.lower() leaves as it is, wherever it stands *)
Definition plain (c : N) : bool :=
  negb (c =? capital_sigma)%N &&
  match to_lower_full c with
  | [d] => (d =? c)%N
  | _ => false
  end.

Definition sigma_free (s : str) : bool :=
  forallb (fun c => negb (c =? capital_sigma)%N) s.

(* s.startswith(p) *)
Fixpoint startswith (p s : str) : bool :=
  match p, s with
  | [], _ => true
  | _ :: _, [] => false
  | a :: p', b :: s' => (a =? b)%N && startswith p' s'
  end.

(* the substring test  p in s *)
Fixpoint py_in (p s : str) : bool :=
  startswith p s ||
  match s with
  | [] => false
  | _ :: s' => py_in p s'
  end.

(* str.isspace on one code point *)
Definition is_space (c : N) : bool := in_ranges white_space c.

Fixpoint all_space (s : str) : bool :=
  match s with
  | [] => true
  | c :: s' => is_space c && all_space s'
  end.

Fixpoint lstrip (s : str) : str :=
  match s with
  | [] => []
  | c :: s' => if is_space c then lstrip s' else s
  end.

Fixpoint rstrip (s : str) : str :=
  match s with
  | [] => []
  | c :: s' => if all_space s then [] else c :: rstrip s'
  end.

(* s.strip() *)
Definition strip (s : str) : str := rstrip (lstrip s).

(* sep.join(parts) *)
Fixpoint join (sep : str) (parts : list str) : str :=
  match parts with
  | [] => []
  | [x] => x
  | x :: rest => x +:+ sep +:+ join sep rest
  end.

(* Python truthiness of a str:  bool(s) *)
Definition truthy (s : str) : bool :=
  match s with [] => false | _ :: _ => true end.

End PyStr.

(* --------------------------------------------------------------------- *)
(* 2. Effects: a store that survives exceptions                          *)
(* --------------------------------------------------------------------- *)
(* A Python statement either completes with a value or raises; what it   *)
(* wrote to its variables and what it did to the outside world before    *)
(* raising stays done.                                                   *)

Module Eff.

Import PyStr.

(* An exception: one that a library call or an object handed over by a
   library raised, or a RuntimeError that a raise statement of app.py
   made.  Both carry the text str(e) gives. *)
Inductive exn : Type :=
| External (msg : str)
| RuntimeError (msg : str).

(* str(e) *)
Definition str_of (e : exn) : str :=
  match e with
  | External msg => msg
  | RuntimeError msg => msg
  end.

Inductive outcome (A : Type) : Type :=
| Val (a : A)
| Exc (e : exn).
Arguments Val {A} a.
Arguments Exc {A} e.

Definition M (S A : Type) : Type := S -> S * outcome A.

Definition ret {S A} (a : A) : M S A := fun s => (s, Val a).

Definition raise {S A} (e : exn) : M S A := fun s => (s, Exc e).

Definition bind {S A B} (c : M S A) (k : A -> M S B) : M S B :=
  fun s =>
    match c s with
    | (s', Val a) => k a s'
    | (s', Exc e) => (s', Exc e)
    end.

(* try: c  except Exception as e: h e *)
Definition try_except {S A} (c : M S A) (h : exn -> M S A) : M S A :=
  fun s =>
    match c s with
    | (s', Val a) => (s', Val a)
    | (s', Exc e) => h e s'
    end.

Definition modify {S} (f : S -> S) : M S unit := fun s => (f s, Val tt).

End Eff.

Import Eff.

Notation "x <- c ;; k" := (bind c (fun x => k))
  (at level 100, c at next level, right associativity).
Notation "c ;;; k" := (bind c (fun _ => k))
  (at level 100, right associativity).

(* --------------------------------------------------------------------- *)
(* 3. extract_text_from_pdf  (app.py 419-444)                            *)
(* --------------------------------------------------------------------- *)

Module Extract.

Import PyStr.

(* page.extract_text(): None, a str, or an exception *)
Inductive page : Type :=
| PageText (t : option str)
| PageRaises (e : str).

(* pytesseract.image_to_string(image): a str, or an exception *)
Inductive image : Type :=
| OcrText (s : str)
| OcrRaises (e : str).

(* The file behind pdf_path, as the two libraries see it.  inl e stands
   for a call that raises e before any page is delivered. *)
Record pdf_file : Type := {
  pdfplumber_open : str + list page;
  convert_from_path : str + list image
}.

(* what happened outside, in order *)
Inductive event : Type :=
| EvOpen                     (* pdfplumber.open(pdf_path) *)
| EvExtractText (i : nat)    (* page.extract_text() on page i *)
| EvConvert                  (* convert_from_path(pdf_path) *)
| EvOcr (i : nat)            (* pytesseract.image_to_string on image i *)
| EvPrint (line : str).   (* print(...) *)

(* the local variable text, and the trace *)
Record store : Type := { text : str; log : list event }.

Definition emit (e : event) : M store unit :=
  modify (fun s => {| text := text s; log := log s ++ [e] |}).

Definition print (line : str) : M store unit := emit (EvPrint line).

(* text += t *)
Definition text_add (t : str) : M store unit :=
  modify (fun s => {| text := text s +:+ t; log := log s |}).

Definition get_text : M store str := fun s => (s, Val (text s)).

Definition open_pdf (pdf : pdf_file) : M store (list page) :=
  emit EvOpen ;;;
  match pdfplumber_open pdf with
  | inl e => raise (External e)
  | inr pages => ret pages
  end.

Definition extract_text (i : nat) (p : page) : M store (option str) :=
  emit (EvExtractText i) ;;;
  match p with
  | PageText t => ret t
  | PageRaises e => raise (External e)
  end.

Definition render_pdf (pdf : pdf_file) : M store (list image) :=
  emit EvConvert ;;;
  match convert_from_path pdf with
  | inl e => raise (External e)
  | inr images => ret images
  end.

Definition image_to_string (i : nat) (im : image) : M store str :=
  emit (EvOcr i) ;;;
  match im with
  | OcrText s => ret s
  | OcrRaises e => raise (External e)
  end.

(* if page_text:   (None and the empty str are false) *)
Definition truthy_opt (t : option str) : bool :=
  match t with
  | None => false
  | Some s => truthy s
  end.

(* for page in pdf.pages: ...   (lines 424-427) *)
Fixpoint direct_loop (i : nat) (pages : list page) : M store unit :=
  match pages with
  | [] => ret tt
  | p :: rest =>
      page_text <- extract_text i p ;;
      (if truthy_opt page_text
       then text_add (default [] page_text)
       else ret tt) ;;;
      direct_loop (S i) rest
  end.

(* for image in images: ...   (lines 438-440) *)
Fixpoint ocr_loop (i : nat) (images : list image) : M store unit :=
  match images with
  | [] => ret tt
  | im :: rest =>
      page_text <- image_to_string i im ;;
      text_add (page_text +:+ nl) ;;;
      ocr_loop (S i) rest
  end.

(* Lines 421-432.  Some r: the return at line 430 was taken with r. *)
Definition direct_stage (pdf : pdf_file) : M store (option str) :=
  try_except
    (pages <- open_pdf pdf ;;
     direct_loop 0 pages ;;;
     t <- get_text ;;
     if truthy (strip t) then ret (Some (strip t)) else ret None)
    (fun e => print ("Direct text extraction failed: " +:+ str_of e) ;;; ret None).

(* Lines 435-442. *)
Definition ocr_stage (pdf : pdf_file) : M store unit :=
  print "Falling back to OCR for image-based PDF." ;;;
  try_except
    (images <- render_pdf pdf ;;
     ocr_loop 0 images)
    (fun e => print ("OCR failed: " +:+ str_of e)).

Definition extract_text_from_pdf (pdf : pdf_file) : M store str :=
  modify (fun s => {| text := []; log := log s |}) ;;;
  early <- direct_stage pdf ;;
  match early with
  | Some r => ret r
  | None =>
      ocr_stage pdf ;;;
      t <- get_text ;;
      ret (strip t)
  end.

Definition init : store := {| text := []; log := [] |}.

(* one call, from a fresh trace *)
Definition run (pdf : pdf_file) : store * outcome str :=
  extract_text_from_pdf pdf init.

(* ---- what a stage has gathered when it ends or breaks ---- *)

(* text of the pages before the first one that raises *)
Fixpoint direct_text (pages : list page) : str :=
  match pages with
  | [] => []
  | PageRaises _ :: _ => []
  | PageText None :: rest => direct_text rest
  | PageText (Some t) :: rest => t +:+ direct_text rest
  end.

Fixpoint direct_error (pages : list page) : option str :=
  match pages with
  | [] => None
  | PageRaises e :: _ => Some e
  | PageText _ :: rest => direct_error rest
  end.

(* OCR output, each followed by a newline, of the images before the
   first one that raises *)
Fixpoint ocr_text (images : list image) : str :=
  match images with
  | [] => []
  | OcrRaises _ :: _ => []
  | OcrText s :: rest => s +:+ nl +:+ ocr_text rest
  end.

Fixpoint ocr_error (images : list image) : option str :=
  match images with
  | [] => None
  | OcrRaises e :: _ => Some e
  | OcrText _ :: rest => ocr_error rest
  end.

Definition stage1_text (pdf : pdf_file) : str :=
  match pdfplumber_open pdf with
  | inl _ => []
  | inr pages => direct_text pages
  end.

Definition stage1_error (pdf : pdf_file) : option str :=
  match pdfplumber_open pdf with
  | inl e => Some e
  | inr pages => direct_error pages
  end.

Definition stage2_text (pdf : pdf_file) : str :=
  match convert_from_path pdf with
  | inl _ => []
  | inr images => ocr_text images
  end.

Definition stage2_error (pdf : pdf_file) : option str :=
  match convert_from_path pdf with
  | inl e => Some e
  | inr images => ocr_error images
  end.

Definition is_ocr_event (e : event) : bool :=
  match e with
  | EvConvert | EvOcr _ => true
  | _ => false
  end.

(* the OCR calls of a trace, in order *)
Definition ocr_calls (l : list event) : list nat :=
  omap (fun e => match e with EvOcr i => Some i | _ => None end) l.

(* the text layer of one page, as line 426 takes it *)
Definition page_layer (p : page) : str :=
  match p with
  | PageText (Some t) => t
  | _ => []
  end.

Definition text_layers (pages : list page) : str :=
  join [] (map page_layer pages).

(* line 430 is reached and taken *)
Definition fast_path (pdf : pdf_file) : bool :=
  match stage1_error pdf with
  | None => truthy (strip (stage1_text pdf))
  | Some _ => false
  end.

(* ---- the traces of the two loops ---- *)

Fixpoint direct_events (i : nat) (pages : list page) : list event :=
  match pages with
  | [] => []
  | PageRaises _ :: _ => [EvExtractText i]
  | PageText _ :: rest => EvExtractText i :: direct_events (S i) rest
  end.

Fixpoint ocr_events (i : nat) (images : list image) : list event :=
  match images with
  | [] => []
  | OcrRaises _ :: _ => [EvOcr i]
  | OcrText _ :: rest => EvOcr i :: ocr_events (S i) rest
  end.

Definition stage1_log (pdf : pdf_file) : list event :=
  EvOpen ::
  match pdfplumber_open pdf with
  | inl _ => []
  | inr pages => direct_events 0 pages
  end ++
  match stage1_error pdf with
  | None => []
  | Some e => [EvPrint ("Direct text extraction failed: " +:+ e)]
  end.

Definition stage2_log (pdf : pdf_file) : list event :=
  EvPrint "Falling back to OCR for image-based PDF." :: EvConvert ::
  match convert_from_path pdf with
  | inl _ => []
  | inr images => ocr_events 0 images
  end ++
  match stage2_error pdf with
  | None => []
  | Some e => [EvPrint ("OCR failed: " +:+ e)]
  end.

(* extract_text() returns on this page *)
Definition page_returns (p : page) : Prop := exists t, p = PageText t.


(* how a loop ends: normally, or with the exception that broke it *)
Definition result_of (err : option str) : outcome unit :=
  match err with
  | None => Val tt
  | Some e => Exc (External e)
  end.

End Extract.

(* --------------------------------------------------------------------- *)
(* 4. The remote service and select_supported_model  (app.py 61-103)     *)
(* --------------------------------------------------------------------- *)

Module Select.

Import PyStr.

(* The Python values an entry of the listing carries: None (also for a
   missing key or attribute), a str, or a list of capability strings. *)
Inductive value : Type :=
| VNone
| VStr (s : str)
| VList (l : list str).

(* bool(v) *)
Definition py_truthy (v : value) : bool :=
  match v with
  | VNone => false
  | VStr s => truthy s
  | VList [] => false
  | VList (_ :: _) => true
  end.

(* a or b *)
Definition py_or (a b : value) : value := if py_truthy a then a else b.

(* for x in v: str(x)   (a str is iterated character by character) *)
Fixpoint chars (s : str) : list str :=
  match s with
  | [] => []
  | c :: s' => [c] :: chars s'
  end.

Definition elements (v : value) : list str :=
  match v with
  | VNone => []
  | VStr s => chars s
  | VList l => l
  end.

(* An item of genai.list_models(): a dict, or an object with attributes. *)
Inductive model_entry : Type :=
| DictEntry (d : gmap string value)
| ObjEntry (attrs : gmap string value).

(* d.get(k)  and  getattr(o, k, None) *)
Definition dict_get (d : gmap string value) (k : string) : value :=
  default VNone (d !! k).

Definition getattr (attrs : gmap string value) (k : string) : value :=
  default VNone (attrs !! k).

(* lines 81-86: name *)
Definition entry_name (m : model_entry) : value :=
  match m with
  | DictEntry d => dict_get d "name"
  | ObjEntry o => getattr o "name"
  end.

(* lines 81-86: methods *)
Definition entry_methods (m : model_entry) : value :=
  match m with
  | DictEntry d =>
      py_or (py_or (dict_get d "supportedMethods") (dict_get d "methods"))
            (VList [])
  | ObjEntry o =>
      py_or (py_or (getattr o "supportedMethods") (getattr o "methods"))
            (VList [])
  end.

(* line 88: any("generate" in str(x).lower() for x in methods) *)
Definition supports_generate (methods : value) : bool :=
  existsb (fun x => py_in "generate" (lower x)) (elements methods).

(* lines 87-89, the test under which the loop returns name *)
Definition entry_matches (m : model_entry) : bool :=
  py_truthy (entry_name m) && py_truthy (entry_methods m) &&
  supports_generate (entry_methods m).

(* What iterating genai.list_models() delivers: the entries yielded, and
   the exception that ends the iteration if there is one.  A call that
   raises at once has no entry and an exception. *)
Record listing : Type := {
  yielded : list model_entry;
  raised : option str
}.

(* What reading response.text does: there is no such attribute (getattr
   then takes its default), it is a str, or the property raises; the
   response objects of the library raise ValueError there when the answer
   holds no text. *)
Inductive text_attr : Type :=
| TextAbsent
| TextIs (s : str)
| TextRaises (e : str).

(* The answer of generate_content: response.text, and str(response). *)
Record response : Type := {
  resp_text : text_attr;
  resp_str : str
}.

(* The remote service, as one run sees it.  inl e and Some e stand for a
   call that raises an exception with str(e) = e. *)
Record remote : Type := {
  list_models : listing;
  GenerativeModel : value -> option str;
  generate_content : value -> str -> str + response
}.

(* remote calls, in order *)
Inductive call : Type :=
| CallListModels
| CallGenerativeModel (name : value)
| CallGenerateContent (name : value) (prompt : str).

Definition emit (c : call) : M (list call) unit :=
  modify (fun tr => (tr ++ [c])%list).

Definition PREFERRED_MODELS : list str :=
  strs
  [ "gemini-2.5-pro";
    "gemini-pro";
    "gemini-2.5-flash";
    "gemini-1.5";
    "gemini-1.5-flash" ].

(* preferred_list or PREFERRED_MODELS *)
Definition pref_of (preferred_list : option (list str)) : list str :=
  match preferred_list with
  | Some (n :: rest) => n :: rest
  | _ => PREFERRED_MODELS
  end.

(* lines 80-89: Some name when the loop returns name *)
Fixpoint scan (items : list model_entry) : option value :=
  match items with
  | [] => None
  | m :: rest =>
      let name := entry_name m in
      let methods := entry_methods m in
      if py_truthy name && py_truthy methods
      then if supports_generate methods then Some name else scan rest
      else scan rest
  end.

(* the body of the try, lines 79-89 *)
Definition listing_scan (env : remote) : M (list call) (option value) :=
  emit CallListModels ;;;
  match scan (yielded (list_models env)) with
  | Some name => ret (Some name)
  | None =>
      match raised (list_models env) with
      | Some e => raise (External e)
      | None => ret None
      end
  end.

(* lines 95-103 *)
Definition fallback (pref : list str) : value :=
  match pref with
  | [] => VNone
  | name :: _ => VStr name
  end.

Definition select_supported_model (env : remote)
    (preferred_list : option (list str)) : M (list call) value :=
  let pref := pref_of preferred_list in
  found <- try_except (listing_scan env) (fun _ => ret None) ;;
  match found with
  | Some name => ret name
  | None => ret (fallback pref)
  end.

(* the value the call returns (SelectFacts.select_run) *)
Definition selected (env : remote) (preferred_list : option (list str))
    : value :=
  match scan (yielded (list_models env)) with
  | Some name => name
  | None => fallback (pref_of preferred_list)
  end.

(* one call, from an empty trace *)
Definition run (env : remote) (preferred_list : option (list str))
    : list call * outcome value :=
  select_supported_model env preferred_list [].

(* the first entry, in listed order, that satisfies f *)
Fixpoint first_such (f : model_entry -> bool) (items : list model_entry)
    : option model_entry :=
  match items with
  | [] => None
  | m :: rest => if f m then Some m else first_such f rest
  end.

(* the capability list of the entry has an element in which "generate"
   occurs, whatever the case of its letters *)
Definition has_generate (m : model_entry) : bool :=
  supports_generate (entry_methods m).

(* ... and the entry has a name that is not empty *)
Definition named_generate (m : model_entry) : bool :=
  py_truthy (entry_name m) && has_generate m.

End Select.

(* --------------------------------------------------------------------- *)
(* 5. analyze_resume  (app.py 447-546)                                   *)
(* --------------------------------------------------------------------- *)

Module Analyze.

Import PyStr Select.

(* what analyze_resume returns: the dict of line 449, or the analysis *)
Inductive result : Type :=
| RDict (d : gmap string str)
| RText (s : str).

(* if job_description:   (None and the empty str are false) *)
Definition jd_truthy (job_description : option str) : bool :=
  match job_description with
  | None => false
  | Some jd => truthy jd
  end.

(* lines 464-470: the f-string up to {resume_text}, with its line breaks
   and indentation *)
Definition resume_head : str :=
  nl +:+
  "    You are an experienced HR with Technical Experience in the field of any one job role from Data Science, Data Analyst, DevOPS, Machine Learning Engineer, Prompt Engineer, AI Engineer, Full Stack Web Development, Big Data Engineering, Marketing Analyst, Human Resource Manager, Software Developer your task is to review the provided resume." +:+ nl +:+
  "    Please share your professional evaluation on whether the candidate's profile aligns with the role.ALso mention Skills he already have and siggest some skills to imorve his resume , alos suggest some course he might take to improve the skills.Highlight the strengths and weaknesses." +:+ nl +:+
  nl +:+
  "    Resume:" +:+ nl +:+
  "    ".

(* ... and after it *)
Definition resume_tail : str := nl +:+ "    ".

Definition resume_block (resume_text : str) : str :=
  resume_head +:+ resume_text +:+ resume_tail.

(* lines 473-480: the f-string up to {job_description} *)
Definition job_head : str :=
  nl +:+
  "        Additionally, compare this resume to the following job description:" +:+ nl +:+
  "        " +:+ nl +:+
  "        Job Description:" +:+ nl +:+
  "        ".

(* ... and after it *)
Definition job_tail : str :=
  nl +:+
  "        " +:+ nl +:+
  "        Highlight the strengths and weaknesses of the applicant in relation to the specified job requirements." +:+ nl +:+
  "        ".

Definition job_block (job_description : str) : str :=
  job_head +:+ job_description +:+ job_tail.

(* lines 464-480: base_prompt as it is sent *)
Definition compose_prompt (resume_text : str)
    (job_description : option str) : str :=
  if jd_truthy job_description
  then resume_block resume_text +:+ job_block (default [] job_description)
  else resume_block resume_text.

(* ---- the diagnostic of lines 486-543 ---- *)

Definition invalid_key_details : list str :=
  strs
  [ "❌ API key is invalid or incorrect";
    "   → Check that your .env file contains: GOOGLE_API_KEY=your_key (no quotes)";
    "   → Verify the key is correct at: https://makersuite.google.com/app/apikey" ].

Definition permission_details : list str :=
  strs
  [ "❌ Permission denied - API key may be restricted";
    "   → Remove API key restrictions temporarily (APIs & Services -> Credentials)";
    "   → Or add 'Generative Language API' to allowed APIs for this key" ].

Definition quota_details : list str :=
  strs
  [ "❌ Quota Exceeded - API Usage Limit Reached";
    "";
    "📊 **What this means:**";
    "   You've reached your API usage limit for Google Generative AI.";
    "";
    "🔧 **How to fix:**";
    "";
    "   **Option 1: Wait and Retry (Free Tier)**";
    "   → Free tier has daily/minute limits that reset over time";
    "   → Wait a few minutes or hours and try again";
    "   → Check quota limits: https://console.cloud.google.com/apis/api/generativelanguage.googleapis.com/quotas";
    "";
    "   **Option 2: Enable Billing (Recommended)**";
    "   → Go to: https://console.cloud.google.com/billing";
    "   → Link a billing account to your project";
    "   → This increases your quota limits significantly";
    "";
    "   **Option 3: Request Quota Increase**";
    "   → Go to: https://console.cloud.google.com/apis/api/generativelanguage.googleapis.com/quotas";
    "   → Select your project and request a quota increase";
    "   → This may require billing to be enabled";
    "";
    "   **Option 4: Use a Different API Key**";
    "   → Create a new project with a new API key";
    "   → Get new key: https://makersuite.google.com/app/apikey";
    "";
    "💡 **Tip:** Check your current usage at:";
    "   https://console.cloud.google.com/apis/api/generativelanguage.googleapis.com/metrics" ].

Definition billing_details : list str :=
  strs
  [ "❌ Billing not enabled";
    "   → Enable billing in Google Cloud Console for your project" ].

Definition quick_fix_checklist : list str :=
  strs
  [ "";
    "📋 Quick Fix Checklist:";
    "   1. Verify .env file exists in project root";
    "   2. Check .env contains: GOOGLE_API_KEY=your_key (no quotes, no spaces)";
    "   3. Enable 'Generative Language API' in Google Cloud Console";
    "   4. Ensure billing is enabled for your Google Cloud project";
    "   5. Remove API key restrictions temporarily while testing";
    "   6. Restart the application after making changes" ].

(* the tests of lines 489, 493, 497 and 526, on msg = str(e).lower() *)
Definition is_invalid_key (msg : str) : bool :=
  py_in "api key not valid" msg || py_in "api_key_invalid" msg
  || py_in "invalid api key" msg.

Definition is_permission (msg : str) : bool :=
  py_in "permission denied" msg || py_in "403" msg.

Definition is_quota (msg : str) : bool :=
  py_in "quota" msg || py_in "429" msg || py_in "rate limit" msg
  || py_in "resource exhausted" msg.

Definition is_billing (msg : str) : bool := py_in "billing" msg.

(* the if/elif chain of lines 489-530 *)
Definition classify (e : str) : list str :=
  let msg := lower e in
  if is_invalid_key msg then invalid_key_details
  else if is_permission msg then permission_details
  else if is_quota msg then quota_details
  else if is_billing msg then billing_details
  else [ "❌ Error: " +:+ e ].

(* the condition of line 533 *)
Definition wants_checklist (error_details : list str) : bool :=
  match error_details with
  | [] => true
  | first :: _ =>
      py_in "api key" (lower first) && negb (py_in "quota" (lower first))
  end.

Definition error_details (e : str) : list str :=
  let details := classify e in
  if wants_checklist details
  then (details ++ quick_fix_checklist)%list
  else details.

(* the message of the RuntimeError of line 543 *)
Definition diagnostic (e : str) : str := join nl (error_details e).

(* the four remedies the quota branch offers *)
Definition quota_guidance : list str :=
  strs
  [ "Wait and Retry";
    "Enable Billing";
    "Request Quota Increase";
    "Use a Different API Key" ].

(* d offers every remedy of the quota branch *)
Definition shows_quota_guidance (d : str) : bool :=
  forallb (fun g => py_in g d) quota_guidance.

(* d holds a line of the quick-fix checklist *)
Definition shows_checklist (d : str) : bool :=
  existsb (fun line => truthy line && py_in line d) quick_fix_checklist.

(* d holds the line of the unclassified branch *)
Definition shows_raw_error (d : str) : bool := py_in "❌ Error: " d.

Definition no_model_message : str :=
  "No suitable model found. Please check your API key and ensure you have access to Gemini models. " +:+
  "Available models can be listed at https://ai.google.dev/models".

Definition empty_resume_result : result :=
  RDict {[ "error" := ("Resume text is required for analysis." : str) ]}.

Section WithRepr.

(* str() of a list, which the f-string of line 462 applies when the listed
   name is a list; its text plays no part below and is left open *)
Variable repr_list : list str -> str.

(* f"{v}" *)
Definition format_value (v : value) : str :=
  match v with
  | VNone => "None"
  | VStr s => s
  | VList l => repr_list l
  end.

(* lines 459-462 *)
Definition make_model (env : remote) (name : value) : M (list call) unit :=
  try_except
    (emit (CallGenerativeModel name) ;;;
     match GenerativeModel env name with
     | Some e => raise (External e)
     | None => ret tt
     end)
    (fun e =>
       raise (RuntimeError
                ("Failed to initialize model '" +:+ format_value name
                 +:+ "': " +:+ str_of e))).

(* lines 482-543 *)
Definition generate (env : remote) (name : value) (prompt : str)
    : M (list call) response :=
  try_except
    (emit (CallGenerateContent name prompt) ;;;
     match generate_content env name prompt with
     | inl e => raise (External e)
     | inr r => ret r
     end)
    (fun e => raise (RuntimeError (diagnostic (str_of e)))).

(* line 545: getattr(response, "text", str(response)), outside every try *)
Definition read_text (r : response) : M (list call) str :=
  match resp_text r with
  | TextIs s => ret s
  | TextAbsent => ret (resp_str r)
  | TextRaises e => raise (External e)
  end.

Definition analyze_resume (env : remote) (resume_text : str)
    (job_description : option str) : M (list call) result :=
  if negb (truthy resume_text) then ret empty_resume_result
  else
    selected_model_name <- select_supported_model env None ;;
    if negb (py_truthy selected_model_name)
    then raise (RuntimeError no_model_message)
    else
      make_model env selected_model_name ;;;
      let base_prompt := compose_prompt resume_text job_description in
      response <- generate env selected_model_name base_prompt ;;
      text <- read_text response ;;
      ret (RText (strip text)).

End WithRepr.

(* what line 545 makes of the answer *)
Definition analysis_of (r : response) : outcome result :=
  match resp_text r with
  | TextIs s => Val (RText (strip s))
  | TextAbsent => Val (RText (strip (resp_str r)))
  | TextRaises e => Exc (External e)
  end.

(* one call, from an empty trace *)
Definition run (repr_list : list str -> str) (env : remote)
    (resume_text : str) (job_description : option str)
    : list call * outcome result :=
  analyze_resume repr_list env resume_text job_description [].

(* the prompts handed to generate_content, in order *)
Definition prompts_sent (tr : list call) : list str :=
  omap (fun c => match c with
                 | CallGenerateContent _ p => Some p
                 | _ => None
                 end) tr.

End Analyze.

(* --------------------------------------------------------------------- *)
(* 6. Sample inputs                                                      *)
(* --------------------------------------------------------------------- *)

Module Samples.

Import PyStr Extract Select.

(* two pages with a text layer *)
Definition text_pdf : pdf_file :=
  {| pdfplumber_open :=
       inr [PageText (Some (utf8 "Jane Doe ")); PageText None;
            PageText (Some (utf8 "Python, AWS"))];
     convert_from_path := inr [OcrText "unused"] |}.


(* a blank page: nothing to extract, OCR reads white space *)
Definition blank_pdf : pdf_file :=
  {| pdfplumber_open := inr [PageText None];
     convert_from_path := inr [OcrText " "] |}.

(* the second page breaks direct extraction, and OCR is not installed *)
Definition half_read_pdf : pdf_file :=
  {| pdfplumber_open :=
       inr [PageText (Some (utf8 "Jane Doe")); PageRaises "malformed page"];
     convert_from_path := inl (utf8 "tesseract is not installed") |}.

(* a scan of three pages; OCR breaks on the second *)
Definition ocr_breaks_pdf : pdf_file :=
  {| pdfplumber_open := inr [PageText None; PageText None; PageText None];
     convert_from_path :=
       inr [OcrText "Jane Doe"; OcrRaises "recognition failed";
            OcrText "Python, AWS"] |}.

(* a listing whose first entry supports generation but has an empty name *)
Definition unnamed_first : listing :=
  {| yielded :=
       [ DictEntry {[ "name" := VStr [];
                      "supportedMethods" := VList (strs ["generateContent"]) ]};
         DictEntry {[ "name" := VStr "models/gemini-pro";
                      "supportedMethods" := VList (strs ["generateContent"]) ]} ];
     raised := None |}.

(* a listing of an embedding model and, as an object, a generating one *)
Definition mixed_listing : listing :=
  {| yielded :=
       [ DictEntry {[ "name" := VStr "models/embedding-001";
                      "supportedMethods" := VList (strs ["embedContent"]) ]};
         ObjEntry {[ "name" := VStr "models/gemini-pro";
                     "methods" := VList (strs ["GenerateContent"; "countTokens"]) ]} ];
     raised := None |}.

Definition listing_raises : listing :=
  {| yielded := []; raised := Some (utf8 "listing unavailable") |}.

(* a service that lists l, builds every model, and fails every generation
   request with e *)
Definition failing_service (l : listing) (e : str) : remote :=
  {| list_models := l;
     GenerativeModel := fun _ => None;
     generate_content := fun _ _ => inl e |}.

(* a service that answers every generation request with text t *)
Definition answering_service (l : listing) (t : str) : remote :=
  {| list_models := l;
     GenerativeModel := fun _ => None;
     generate_content := fun _ _ => inr {| resp_text := TextIs t; resp_str := t |} |}.

Definition no_repr (l : list str) : str := [].

End Samples.

(* --------------------------------------------------------------------- *)
(* 7. The API key: start-up and the key preview                          *)
(*    (app.py 13-29, 52-56, 587-601)                                     *)
(* --------------------------------------------------------------------- *)

Module Config.

Import PyStr.

(* the characters chr(34) and chr(39), as the arguments of strip *)
Definition dquote : str := [34%N].
Definition squote : str := [39%N].

(* c in chars *)
Fixpoint in_chars (chars : str) (c : N) : bool :=
  match chars with
  | [] => false
  | d :: rest => (d =? c)%N || in_chars rest c
  end.

Fixpoint all_by (f : N -> bool) (s : str) : bool :=
  match s with
  | [] => true
  | c :: s' => f c && all_by f s'
  end.

Fixpoint lstrip_by (f : N -> bool) (s : str) : str :=
  match s with
  | [] => []
  | c :: s' => if f c then lstrip_by f s' else s
  end.

Fixpoint rstrip_by (f : N -> bool) (s : str) : str :=
  match s with
  | [] => []
  | c :: s' => if all_by f s then [] else c :: rstrip_by f s'
  end.

(* s.strip(chars): the characters of chars are removed from both ends *)
Definition strip_chars (chars s : str) : str :=
  rstrip_by (in_chars chars) (lstrip_by (in_chars chars) s).

(* lines 17 and 589:  api_key.strip().strip(chr(34)).strip("'") *)
Definition normalize_key (api_key : str) : str :=
  strip_chars squote (strip_chars dquote (strip api_key)).

(* the message of lines 20-29 *)
Definition key_not_set_message : str :=
  "Environment variable GOOGLE_API_KEY not set." +:+ nl +:+
  nl +:+
  "To fix this:" +:+ nl +:+
  "1. Create a .env file in the project root directory" +:+ nl +:+
  "2. Add the following line (without quotes):" +:+ nl +:+
  "   GOOGLE_API_KEY=your_actual_api_key_here" +:+ nl +:+
  "3. Make sure there are no spaces around the = sign" +:+ nl +:+
  "4. Restart the application" +:+ nl +:+
  nl +:+
  "You can get your API key from: https://makersuite.google.com/app/apikey".

(* Lines 14-29: what the module keeps as api_key from the value of
   os.getenv("GOOGLE_API_KEY") (None when the variable is not set), or the
   RuntimeError that stops the start-up. *)
Definition load_api_key (env_value : option str) : outcome str :=
  let api_key :=
    match env_value with
    | None => None
    | Some v => if truthy v then Some (normalize_key v) else Some v
    end in
  match api_key with
  | None => Exc (RuntimeError key_not_set_message)
  | Some k =>
      if truthy k then Val k else Exc (RuntimeError key_not_set_message)
  end.

(* lines 52 and 598: api_key.startswith("AIza") *)
Definition key_format_ok (api_key : str) : bool := startswith "AIza" api_key.

(* s[:n] *)
Fixpoint py_take (n : nat) (s : str) : str :=
  match n, s with
  | O, _ => []
  | S _, [] => []
  | S n', c :: s' => c :: py_take n' s'
  end.

(* s[n:] *)
Fixpoint py_drop (n : nat) (s : str) : str :=
  match n, s with
  | O, _ => s
  | S _, [] => []
  | S n', _ :: s' => py_drop n' s'
  end.

(* s[-n:] for n > 0: the last n characters, all of s when it is shorter *)
Definition py_last (n : nat) (s : str) : str :=
  py_drop (length s - n) s.

(* line 594 *)
Definition masked_key (diag_api_key : str) : str :=
  if (8 <? length diag_api_key)%nat
  then py_take 4 diag_api_key +:+ "..." +:+ py_last 4 diag_api_key
  else "***".

(* the first and the last character *)
Definition first_char (s : str) : option N :=
  match s with
  | [] => None
  | c :: _ => Some c
  end.

Fixpoint last_char (s : str) : option N :=
  match s with
  | [] => None
  | [c] => Some c
  | _ :: s' => last_char s'
  end.

(* a character strip leaves at either end: no white space, no quote *)
Definition key_char (c : N) : bool :=
  negb (is_space c) && negb (in_chars dquote c) && negb (in_chars squote c).

(* neither end of s would be touched by the three strips *)
Definition clean_ends (s : str) : bool :=
  match first_char s, last_char s with
  | Some a, Some b => key_char a && key_char b
  | _, _ => false
  end.

End Config.

(* --------------------------------------------------------------------- *)
(* 8. The analysis section of the page  (app.py 749-795)                 *)
(* --------------------------------------------------------------------- *)

Module Page.

Import PyStr Select Analyze.

(* The calls of st.success, st.markdown, st.download_button and st.error
   are taken to return; what they put on the screen is recorded, in
   order. *)
Inductive ui_event : Type :=
| UiSuccess (body : str)               (* st.success *)
| UiMarkdown (body : str)              (* st.markdown of a literal *)
| UiShow (analysis : result)           (* st.markdown(analysis) *)
| UiDownload (data file_name : str) (* st.download_button *)
| UiError (body : str).             (* st.error *)

(* the literal of lines 776-779 *)
Definition container_open : str :=
  nl +:+
  "                <div style='background: linear-gradient(135deg, rgba(99, 102, 241, 0.1), rgba(20, 184, 166, 0.1)); " +:+ nl +:+
  "                            border: 2px solid #334155; border-radius: 12px; padding: 2rem; margin-top: 1.5rem;'>" +:+ nl +:+
  "                ".

(* '=' * n *)
Definition rule (n : nat) : str := concat (repeat ("=" : str) n).

(* the banner of line 786, up to {analysis} *)
Definition results_header : str :=
  "Resume Analysis Results" +:+ nl +:+ rule 50 +:+ nl +:+ nl.

Section WithRepr.

(* str() of a list and of a dict, which f-strings apply to values that are
   not str; their text plays no part below and is left open *)
Variable repr_list : list str -> str.
Variable repr_dict : gmap string str -> str.

(* f"{analysis}" *)
Definition format_result (analysis : result) : str :=
  match analysis with
  | RText s => s
  | RDict d => repr_dict d
  end.

(* line 786 *)
Definition results_text (analysis : result) : str :=
  results_header +:+ format_result analysis.

(* Lines 766-795: the click on "Analyze Resume".  The remote calls made
   and what is shown. *)
Definition on_analyze (env : remote) (resume_text job_description : str)
    : list call * list ui_event :=
  match Analyze.run repr_list env resume_text (Some job_description) with
  | (tr, Val analysis) =>
      (tr,
       [ UiSuccess "✨ Analysis complete!";
         UiMarkdown container_open;
         UiMarkdown "### 📊 Analysis Results";
         UiShow analysis;
         UiMarkdown "</div>";
         UiDownload (results_text analysis) "resume_analysis.txt" ])
  | (tr, Exc e) =>
      (tr, [ UiError ("❌ Analysis failed: " +:+ str_of e) ])
  end.

(* one run of the script with a file uploaded and the button pressed *)
Record page_run : Type := {
  extraction : list Extract.event;
  remote_calls : list call;
  shown : list ui_event
}.

(* Lines 752-795.  The extraction of line 757 is outside the try of line
   768: an exception there would end the script. *)
Definition press_analyze (pdf : Extract.pdf_file) (env : remote)
    (job_description : str) : outcome page_run :=
  match Extract.run pdf with
  | (st, Val resume_text) =>
      let (tr, ui) := on_analyze env resume_text job_description in
      Val {| extraction := Extract.log st; remote_calls := tr; shown := ui |}
  | (_, Exc e) => Exc e
  end.

End WithRepr.

Definition is_error (e : ui_event) : bool :=
  match e with
  | UiError _ => true
  | _ => false
  end.

Definition is_download (e : ui_event) : bool :=
  match e with
  | UiDownload _ _ => true
  | _ => false
  end.

End Page.

(* --------------------------------------------------------------------- *)
(* 9. Reading a trace of the extractor                                   *)
(* --------------------------------------------------------------------- *)

Module Observe.

Import Extract.

(* the pages extract_text() was called on, in order *)
Definition extract_calls (l : list event) : list nat :=
  omap (fun e => match e with EvExtractText i => Some i | _ => None end) l.

Definition is_open (e : event) : bool :=
  match e with EvOpen => true | _ => false end.

Definition is_convert (e : event) : bool :=
  match e with EvConvert => true | _ => false end.

(* how many events of a trace satisfy f *)
Definition count (f : event -> bool) (l : list event) : nat :=
  length (List.filter f l).

End Observe.

(* --------------------------------------------------------------------- *)
(* 10. More sample inputs                                                *)
(* --------------------------------------------------------------------- *)

Module MoreSamples.

Import PyStr Extract Select Samples.

(* the text layer of the only page is a blank and a line break *)
Definition blank_layer_pdf : pdf_file :=
  {| pdfplumber_open := inr [PageText (Some (" " +:+ nl))];
     convert_from_path := inr [OcrText "Jane Doe"] |}.

(* the second of three pages breaks direct extraction; OCR reads all *)
Definition broken_middle_pdf : pdf_file :=
  {| pdfplumber_open :=
       inr [PageText (Some (utf8 "Jane Doe")); PageRaises "malformed page";
            PageText (Some (utf8 "Python, AWS"))];
     convert_from_path :=
       inr [OcrText "Jane Doe"; OcrText "Education"; OcrText "Python, AWS"] |}.

(* capabilities given as one str instead of a list of str *)
Definition string_capability : listing :=
  {| yielded :=
       [ DictEntry {[ "name" := VStr "models/gemini-pro";
                      "supportedMethods" := VStr "generateContent" ]} ];
     raised := None |}.

(* a service whose model constructor raises *)
Definition unbuildable_service (l : listing) (e : str) : remote :=
  {| list_models := l;
     GenerativeModel := fun _ => Some e;
     generate_content := fun _ _ => inl (utf8 "unused") |}.

(* a key as it is often pasted into .env: padded and in double quotes *)
Definition pasted_key : str :=
  " " +:+ (Config.dquote +:+ "AIzaSyA-1234567890abcdef" +:+ Config.dquote)
  +:+ nl.

(* a service whose answer holds no text: reading response.text raises *)
Definition blocked_service : remote :=
  {| list_models := listing_raises;
     GenerativeModel := fun _ => None;
     generate_content := fun _ _ =>
       inr {| resp_text := TextRaises "The response holds no text";
              resp_str := "response" |} |}.

Definition no_repr_dict (d : gmap string str) : str := [].

End MoreSamples.

(* ===================================================================== *)
(* Properties                                                            *)
(* ===================================================================== *)

Module PyStrFacts.

Import PyStr.

(* ---- algebra of append ---- *)

Lemma app_nil_l (s : str) : [] +:+ s = s.
Proof. reflexivity. Qed.

Lemma app_cons (c : N) (s t : str) : (c :: s) +:+ t = c :: (s +:+ t).
Proof. reflexivity. Qed.

Ltac app_simpl := rewrite ?app_nil_l, ?app_cons; simpl.

Lemma app_nil_r (s : str) : s +:+ [] = s.
Proof. apply List.app_nil_r. Qed.

Lemma app_assoc (a b c : str) : (a +:+ b) +:+ c = a +:+ (b +:+ c).
Proof. symmetry. apply List.app_assoc. Qed.

(* ---- lower ---- *)

(* what stands before a part of the text is lowered on its own, up to the
   form of its capital sigmas *)
Lemma lower_from_app (a t : str) : forall st,
  exists a', lower_from st (a +:+ t) = a' +:+ lower_from (state_after st a) t.
Proof.
  induction a as [|c a IH]; intros st.
  - now exists [].
  - cbn [List.app lower_from state_after].
    destruct (IH (if is_case_ignorable c then st else is_cased c)) as [a' ->].
    eexists. rewrite <- app_assoc. reflexivity.
Qed.

(* without a capital sigma nothing depends on what follows *)
Lemma lower_from_sigma_free (a t : str) : forall st,
  sigma_free a = true ->
  lower_from st (a +:+ t)
  = lower_from st a +:+ lower_from (state_after st a) t.
Proof.
  induction a as [|c a IH]; intros st H; [reflexivity |].
  cbn [sigma_free forallb] in H. apply andb_true_iff in H as [Hc Ha].
  cbn [List.app lower_from state_after].
  apply negb_true_iff in Hc. rewrite Hc.
  rewrite (IH _ Ha). now rewrite app_assoc.
Qed.

Lemma lower_from_plain (p t : str) : forall st,
  forallb plain p = true ->
  lower_from st (p +:+ t) = p +:+ lower_from (state_after st p) t.
Proof.
  induction p as [|c p IH]; intros st H; [reflexivity |].
  cbn [forallb] in H. apply andb_true_iff in H as [Hc Hp].
  cbn [List.app lower_from state_after]. rewrite (IH _ Hp).
  unfold plain in Hc. apply andb_true_iff in Hc as [Hs Hl].
  apply negb_true_iff in Hs. rewrite Hs.
  destruct (to_lower_full c) as [|d [|? ?]]; try discriminate.
  apply N.eqb_eq in Hl. now subst d.
Qed.

Lemma lower_length (s : str) : forall st,
  length (lower_from st s) <= 2 * length s.
Proof.
  induction s as [|c s IH]; intros st; [apply Nat.le_refl |].
  cbn [lower_from]. rewrite List.length_app.
  specialize (IH (if is_case_ignorable c then st else is_cased c)).
  assert (H : length (if (c =? capital_sigma)%N
                      then [if st && negb (next_cased s)
                            then final_sigma else small_sigma]
                      else to_lower_full c) <= 2).
  { destruct (c =? capital_sigma)%N; [cbn; lia |].
    unfold to_lower_full. destruct (c =? 304)%N; cbn; lia. }
  cbn [length]. lia.
Qed.

(* ---- prefix and substring tests ---- *)

Lemma startswith_app (p t : str) : startswith p (p +:+ t) = true.
Proof.
  induction p as [|c p IH]; app_simpl; [reflexivity |].
  now rewrite N.eqb_refl, IH.
Qed.

Lemma startswith_inv (p s : str) :
  startswith p s = true -> exists t, s = p +:+ t.
Proof.
  revert s; induction p as [|c p IH]; intros s H.
  - now exists s.
  - destruct s as [|d s]; simpl in H; [discriminate |].
    apply andb_true_iff in H as [Hc Hp].
    apply N.eqb_eq in Hc; subst d.
    destruct (IH _ Hp) as [t ->]. now exists t.
Qed.

Lemma py_in_app (a p b : str) : py_in p (a +:+ p +:+ b) = true.
Proof.
  induction a as [|c a IH]; app_simpl.
  - destruct (p +:+ b) eqn:E; simpl; rewrite <- E, startswith_app; reflexivity.
  - rewrite IH. apply orb_true_r.
Qed.

Lemma py_in_inv (p s : str) :
  py_in p s = true -> exists a b, s = a +:+ p +:+ b.
Proof.
  induction s as [|c s IH]; simpl; intros H.
  - rewrite orb_false_r in H. destruct (startswith_inv _ _ H) as [t ->].
    now exists [], t.
  - apply orb_true_iff in H as [H | H].
    + destruct (startswith_inv _ _ H) as [t ->]. now exists [], t.
    + destruct (IH H) as (a & b & ->). now exists (c :: a), b.
Qed.

Lemma py_in_spec (p s : str) :
  py_in p s = true <-> exists a b, s = a +:+ p +:+ b.
Proof.
  split; [apply py_in_inv | intros (a & b & ->); apply py_in_app].
Qed.

Lemma py_in_length (p s : str) :
  py_in p s = true -> length p <= length s.
Proof.
  intros H. apply py_in_inv in H as (a & b & ->).
  rewrite !List.length_app. lia.
Qed.

(* a pattern of plain code points is still found after lowering *)
Lemma py_in_lower (p s : str) :
  forallb plain p = true -> py_in p s = true -> py_in p (lower s) = true.
Proof.
  intros Hp H. apply py_in_inv in H as (a & b & ->). unfold lower.
  destruct (lower_from_app a (p +:+ b) false) as [a' ->].
  rewrite (lower_from_plain p b _ Hp). apply py_in_app.
Qed.

Lemma py_in_app_l (p a b : str) :
  py_in p a = true -> py_in p (a +:+ b) = true.
Proof.
  intros H. apply py_in_inv in H as (x & y & ->).
  rewrite !app_assoc. apply py_in_app.
Qed.

Lemma py_in_app_r (p a b : str) :
  py_in p b = true -> py_in p (a +:+ b) = true.
Proof.
  intros H. apply py_in_inv in H as (x & y & ->).
  rewrite <- app_assoc. apply py_in_app.
Qed.

(* ---- strip ---- *)

Lemma all_space_app (a b : str) :
  all_space (a +:+ b) = all_space a && all_space b.
Proof.
  induction a as [|c a IH]; app_simpl; [reflexivity |].
  now rewrite IH, andb_assoc.
Qed.

Lemma lstrip_all_space (s : str) : all_space s = true -> lstrip s = [].
Proof.
  induction s as [|c s IH]; simpl; [reflexivity |].
  intros H. apply andb_true_iff in H as [-> Hs]. auto.
Qed.


Lemma strip_all_space (s : str) : all_space s = true -> strip s = [].
Proof. intros H. unfold strip. now rewrite lstrip_all_space. Qed.

Lemma lstrip_app (a b : str) :
  lstrip (a +:+ b) = if all_space a then lstrip b else lstrip a +:+ b.
Proof.
  induction a as [|c a IH]; app_simpl; [reflexivity |].
  destruct (is_space c); simpl; [exact IH | reflexivity].
Qed.


Lemma all_space_lstrip (s : str) : all_space (lstrip s) = all_space s.
Proof.
  induction s as [|c s IH]; simpl; [reflexivity |].
  destruct (is_space c) eqn:E; simpl; [exact IH | now rewrite E].
Qed.

Lemma strip_empty_iff (s : str) : strip s = [] <-> all_space s = true.
Proof.
  split; [| apply strip_all_space].
  unfold strip. rewrite <- (all_space_lstrip s).
  generalize (lstrip s) as t. intros [|c t]; [reflexivity |].
  cbn [rstrip]. destruct (all_space (c :: t)); [reflexivity | discriminate].
Qed.


(* white space on the left end does not survive strip *)
Lemma strip_app_space_l (w s : str) :
  all_space w = true -> strip (w +:+ s) = strip s.
Proof. intros Hw. unfold strip. now rewrite lstrip_app, Hw. Qed.

(* ---- truth of a str ---- *)

Lemma truthy_true_iff (s : str) : truthy s = true <-> s <> [].
Proof. destruct s; cbn; split; congruence. Qed.

Lemma truthy_false_iff (s : str) : truthy s = false <-> s = [].
Proof. destruct s; cbn; split; congruence. Qed.

End PyStrFacts.

Module ExtractFacts.

Import PyStr PyStrFacts Extract.

Lemma direct_loop_run (pages : list page) : forall (i : nat) (s : store),
  direct_loop i pages s =
  ({| text := text s +:+ direct_text pages;
      log := log s ++ direct_events i pages |},
   result_of (direct_error pages)).
Proof.
  induction pages as [|p rest IH]; intros i [t l]; simpl.
  - unfold ret. now rewrite app_nil_r, List.app_nil_r.
  - destruct p as [[u|]|e]; unfold bind, extract_text, emit, modify, ret, raise;
      simpl.
    + destruct (truthy u) eqn:Hu; unfold text_add, modify, bind; simpl;
        rewrite IH; simpl; rewrite <- ?List.app_assoc.
      * reflexivity.
      * destruct u; [| discriminate]. reflexivity.
    + rewrite IH; simpl. now rewrite <- List.app_assoc.
    + now rewrite app_nil_r.
Qed.

Lemma ocr_loop_run (images : list image) : forall (i : nat) (s : store),
  ocr_loop i images s =
  ({| text := text s +:+ ocr_text images;
      log := log s ++ ocr_events i images |},
   result_of (ocr_error images)).
Proof.
  induction images as [|im rest IH]; intros i [t l]; simpl.
  - unfold ret. now rewrite app_nil_r, List.app_nil_r.
  - destruct im as [u|e];
      unfold bind, image_to_string, emit, text_add, modify, ret, raise; simpl.
    + rewrite IH; simpl. now rewrite <- !List.app_assoc.
    + now rewrite app_nil_r.
Qed.

(* The whole function, in closed form: the value returned and the store
   left behind, for every file. *)
Lemma run_closed_form (pdf : pdf_file) :
  run pdf =
  if fast_path pdf
  then ({| text := stage1_text pdf; log := stage1_log pdf |},
        Val (strip (stage1_text pdf)))
  else ({| text := stage1_text pdf +:+ stage2_text pdf;
           log := stage1_log pdf ++ stage2_log pdf |},
        Val (strip (stage1_text pdf +:+ stage2_text pdf))).
Proof.
  destruct pdf as [[e1 | pages] [e2 | images]];
    unfold run, extract_text_from_pdf, direct_stage, ocr_stage, fast_path,
      stage1_log, stage2_log, stage1_text, stage1_error, stage2_text,
      stage2_error, open_pdf, render_pdf, print, emit, get_text, init;
    cbn [pdfplumber_open convert_from_path];
    unfold bind, try_except, modify, ret, raise; cbn [text log];
    rewrite ?direct_loop_run, ?app_nil_l; cbn [text log result_of];
    try (destruct (direct_error pages) as [e1|]; cbn [result_of text log];
         [| destruct (truthy (strip (direct_text pages)))]);
    rewrite ?ocr_loop_run; cbn [text log result_of];
    try (destruct (ocr_error images) as [e2|]; cbn [result_of text log]);
    rewrite ?app_nil_l, ?app_nil_r; cbn [List.app];
    rewrite <- ?List.app_assoc; cbn [List.app]; rewrite ?List.app_nil_r;
    reflexivity.
Qed.

(* ---- pages that do not raise ---- *)

Lemma join_empty_cons (x : str) (l : list str) :
  join [] (x :: l) = x +:+ join [] l.
Proof. destruct l; cbn [join]; [now rewrite app_nil_r | reflexivity]. Qed.

Lemma direct_error_none (pages : list page) :
  Forall page_returns pages -> direct_error pages = None.
Proof.
  induction 1 as [|p rest [t ->] _ IH]; [reflexivity | exact IH].
Qed.

Lemma direct_text_layers (pages : list page) :
  Forall page_returns pages -> direct_text pages = text_layers pages.
Proof.
  unfold text_layers.
  induction 1 as [|p rest [t ->] _ IH]; [reflexivity |].
  cbn [map]. rewrite join_empty_cons, <- IH.
  destruct t; reflexivity.
Qed.



(* ---- OCR over images that are all read ---- *)




(* ---- which events are OCR calls ---- *)




Lemma direct_events_no_ocr (pages : list page) : forall i,
  forallb (fun e => negb (is_ocr_event e)) (direct_events i pages) = true.
Proof.
  induction pages as [|[t|e] rest IH]; intros i; cbn; auto.
Qed.

End ExtractFacts.

Module SelectFacts.

Import PyStr PyStrFacts Select.

(* a single character is too short to hold "generate", also lowered *)
Lemma chars_no_generate (s : str) :
  existsb (fun x => py_in "generate" (lower x)) (chars s) = false.
Proof.
  induction s as [|c s IH]; [reflexivity |].
  cbn [chars existsb]. rewrite IH, orb_false_r.
  destruct (py_in "generate" (lower [c])) eqn:E; [| reflexivity].
  apply py_in_length in E. pose proof (lower_length [c] false) as H.
  unfold lower in E. cbn [length] in H.
  change (length (utf8 "generate")) with 8 in E. lia.
Qed.

(* a capability list with a match is not empty, hence true at line 87 *)
Lemma supports_generate_truthy (v : value) :
  supports_generate v = true -> py_truthy v = true.
Proof.
  destruct v as [|s|[|x l]]; unfold supports_generate; cbn [elements];
    try discriminate; [| reflexivity].
  now rewrite chars_no_generate.
Qed.

Lemma entry_matches_named_generate (m : model_entry) :
  entry_matches m = named_generate m.
Proof.
  unfold entry_matches, named_generate, has_generate.
  destruct (py_truthy (entry_name m)); [| reflexivity]. cbn [andb].
  destruct (supports_generate (entry_methods m)) eqn:E.
  - now rewrite (supports_generate_truthy _ E).
  - apply andb_false_r.
Qed.

(* keyed records and attribute-bearing objects are read alike *)
Lemma entry_forms_agree (d : gmap string value) :
  entry_name (DictEntry d) = entry_name (ObjEntry d) /\
  entry_methods (DictEntry d) = entry_methods (ObjEntry d).
Proof. split; reflexivity. Qed.

Lemma scan_first_such (items : list model_entry) :
  scan items = entry_name <$> first_such named_generate items.
Proof.
  induction items as [|m rest IH]; [reflexivity |].
  cbn [scan first_such]. rewrite <- entry_matches_named_generate.
  unfold entry_matches.
  destruct (py_truthy (entry_name m) && py_truthy (entry_methods m));
    cbn [andb]; [| exact IH].
  destruct (supports_generate (entry_methods m)); [reflexivity | exact IH].
Qed.

(* The call in closed form: one listing request, and the value. *)
Lemma select_run (env : remote) (pl : option (list str)) (tr : list call) :
  select_supported_model env pl tr =
  ((tr ++ [CallListModels])%list, Val (selected env pl)).
Proof.
  unfold select_supported_model, selected, listing_scan, try_except, bind,
    emit, modify, ret, raise.
  destruct (scan (yielded (list_models env))); [reflexivity |].
  destruct (raised (list_models env)); reflexivity.
Qed.

Lemma pref_of_nonempty (pl : option (list str)) :
  exists n rest, pref_of pl = n :: rest.
Proof.
  destruct pl as [[|n rest]|]; unfold pref_of, PREFERRED_MODELS, strs;
    cbn [map]; eauto.
Qed.

(* what is selected is either a name that passed the test of line 87 or
   an entry of the preference list *)
Lemma selected_cases (env : remote) (pl : option (list str)) :
  (exists m, first_such named_generate (yielded (list_models env)) = Some m /\
             selected env pl = entry_name m /\
             py_truthy (entry_name m) = true) \/
  (first_such named_generate (yielded (list_models env)) = None /\
   exists n rest, pref_of pl = n :: rest /\ selected env pl = VStr n).
Proof.
  unfold selected. rewrite scan_first_such.
  destruct (first_such named_generate (yielded (list_models env))) as [m|] eqn:E.
  - left. exists m. repeat split.
    clear - E. induction (yielded (list_models env)) as [|x l IH];
      [discriminate |].
    cbn in E. destruct (named_generate x) eqn:Hx.
    + injection E as ->. unfold named_generate in Hx.
      now apply andb_true_iff in Hx as [? _].
    + auto.
  - right. split; [reflexivity |].
    destruct (pref_of_nonempty pl) as (n & rest & Hp).
    exists n, rest. now rewrite Hp.
Qed.

End SelectFacts.

Module AnalyzeFacts.

Import PyStr PyStrFacts Select SelectFacts Analyze.

(* under the default preference list the selected name is never false *)
Lemma selected_default_truthy (env : remote) :
  py_truthy (selected env None) = true.
Proof.
  destruct (selected_cases env None) as [(m & _ & -> & Hm) | (_ & n & rest & Hp & ->)].
  - exact Hm.
  - unfold pref_of, PREFERRED_MODELS, strs in Hp. cbn [map] in Hp.
    injection Hp as <- _. vm_compute. reflexivity.
Qed.

(* The call in closed form, for a resume text that is not empty. *)
Lemma analyze_run (repr_list : list str -> str) (env : remote)
    (resume_text : str) (jd : option str) :
  truthy resume_text = true ->
  Analyze.run repr_list env resume_text jd =
  let name := selected env None in
  let prompt := compose_prompt resume_text jd in
  match GenerativeModel env name with
  | Some e =>
      ([CallListModels; CallGenerativeModel name],
       Exc (RuntimeError
              ("Failed to initialize model '" +:+ format_value repr_list name
               +:+ "': " +:+ e)))
  | None =>
      match generate_content env name prompt with
      | inl e =>
          ([CallListModels; CallGenerativeModel name;
            CallGenerateContent name prompt],
           Exc (RuntimeError (diagnostic e)))
      | inr r =>
          ([CallListModels; CallGenerativeModel name;
            CallGenerateContent name prompt],
           analysis_of r)
      end
  end.
Proof.
  intros Hres. unfold Analyze.run, analyze_resume. rewrite Hres. cbn [negb].
  unfold bind at 1. rewrite select_run, selected_default_truthy. cbn [negb].
  unfold make_model, generate, read_text, analysis_of, try_except, bind,
    emit, modify, ret, raise.
  cbn [List.app].
  destruct (GenerativeModel env (selected env None)); [reflexivity |].
  cbn [List.app].
  destruct (generate_content env (selected env None)
              (compose_prompt resume_text jd)) as [e|r]; [reflexivity |].
  destruct (resp_text r); reflexivity.
Qed.

Lemma RuntimeError_inj {A : Type} (a b : str) :
  @Exc A (RuntimeError a) = Exc (RuntimeError b) -> a = b.
Proof. intros H. now inversion H. Qed.

(* ---- the diagnostic ---- *)

Lemma join_cons2 (sep x y : str) (l : list str) :
  join sep (x :: y :: l) = x +:+ sep +:+ join sep (y :: l).
Proof. reflexivity. Qed.

Lemma classify_quota (e : str) :
  is_invalid_key (lower e) = false ->
  is_permission (lower e) = false ->
  is_quota (lower e) = true ->
  classify e = quota_details.
Proof. intros H1 H2 H3. unfold classify. now rewrite H1, H2, H3. Qed.

Lemma classify_unclassified (e : str) :
  is_invalid_key (lower e) = false ->
  is_permission (lower e) = false ->
  is_quota (lower e) = false ->
  is_billing (lower e) = false ->
  classify e = [ "❌ Error: " +:+ e ].
Proof. intros H1 H2 H3 H4. unfold classify. now rewrite H1, H2, H3, H4. Qed.

(* an unclassified error is shown as it came; the checklist follows only
   when the shown line mentions an API key *)
Lemma diagnostic_unclassified (e : str) :
  is_invalid_key (lower e) = false ->
  is_permission (lower e) = false ->
  is_quota (lower e) = false ->
  is_billing (lower e) = false ->
  diagnostic e =
  if py_in "api key" (lower ("❌ Error: " +:+ e))
     && negb (py_in "quota" (lower ("❌ Error: " +:+ e)))
  then join nl (("❌ Error: " +:+ e) :: quick_fix_checklist)
  else "❌ Error: " +:+ e.
Proof.
  intros H1 H2 H3 H4. unfold diagnostic, error_details.
  rewrite (classify_unclassified e H1 H2 H3 H4). cbn [wants_checklist].
  destruct (py_in "api key" (lower ("❌ Error: " +:+ e))
            && negb (py_in "quota" (lower ("❌ Error: " +:+ e))));
    reflexivity.
Qed.

(* every diagnostic opens with the cross mark, U+274C *)
Lemma diagnostic_head (e : str) : head (diagnostic e) = Some 10060%N.
Proof.
  unfold diagnostic, error_details, classify.
  destruct (is_invalid_key (lower e)); [vm_compute; reflexivity |].
  destruct (is_permission (lower e)); [vm_compute; reflexivity |].
  destruct (is_quota (lower e)); [vm_compute; reflexivity |].
  destruct (is_billing (lower e)); [vm_compute; reflexivity |].
  assert (E : utf8 "❌ Error: " = 10060%N :: utf8 " Error: ")
    by (vm_compute; reflexivity).
  destruct (wants_checklist _).
  - unfold quick_fix_checklist, strs. cbn [List.app map]. rewrite join_cons2.
    rewrite E. reflexivity.
  - cbn [join]. rewrite E. reflexivity.
Qed.

Lemma diagnostic_not_no_model (e : str) : diagnostic e <> no_model_message.
Proof.
  intros H. pose proof (diagnostic_head e) as Hh. rewrite H in Hh.
  assert (E : head no_model_message = Some 78%N) by (vm_compute; reflexivity).
  rewrite E in Hh. discriminate.
Qed.

Lemma init_failure_not_no_model (a b : str) :
  "Failed to initialize model '" +:+ a +:+ "': " +:+ b <> no_model_message.
Proof.
  intros H. apply (f_equal head) in H.
  assert (E : utf8 "Failed to initialize model '"
              = 70%N :: utf8 "ailed to initialize model '")
    by (vm_compute; reflexivity).
  rewrite E in H. cbn [List.app head] in H.
  assert (E' : head no_model_message = Some 78%N) by (vm_compute; reflexivity).
  rewrite E' in H. discriminate.
Qed.

(* ---- the prompt ---- *)

Lemma compose_prompt_with_jd (resume_text jd : str) :
  truthy jd = true ->
  compose_prompt resume_text (Some jd) =
  resume_head +:+ resume_text +:+ (resume_tail +:+ job_head) +:+ jd +:+ job_tail.
Proof.
  intros H. unfold compose_prompt, jd_truthy. rewrite H.
  unfold resume_block, job_block. cbn [default]. unfold id.
  now rewrite !app_assoc.
Qed.

End AnalyzeFacts.

Module StripFacts.

Import PyStr PyStrFacts Config.

Section By.

Variable f : N -> bool.

Lemma all_by_app (a b : str) :
  all_by f (a +:+ b) = all_by f a && all_by f b.
Proof.
  induction a as [|c a IH]; app_simpl; [reflexivity |].
  now rewrite IH, andb_assoc.
Qed.

Lemma lstrip_by_all (s : str) : all_by f s = true -> lstrip_by f s = [].
Proof.
  induction s as [|c s IH]; simpl; [reflexivity |].
  intros H. apply andb_true_iff in H as [-> Hs]. auto.
Qed.

Lemma rstrip_by_all (s : str) : all_by f s = true -> rstrip_by f s = [].
Proof.
  destruct s as [|c s]; [reflexivity |]. intros H. cbn [rstrip_by].
  now rewrite H.
Qed.

Lemma lstrip_by_app (a b : str) :
  lstrip_by f (a +:+ b) =
  if all_by f a then lstrip_by f b else lstrip_by f a +:+ b.
Proof.
  induction a as [|c a IH]; app_simpl; [reflexivity |].
  destruct (f c); simpl; [exact IH | reflexivity].
Qed.

Lemma rstrip_by_app (a b : str) :
  rstrip_by f (a +:+ b) =
  if all_by f b then rstrip_by f a else a +:+ rstrip_by f b.
Proof.
  induction a as [|c a IH].
  - app_simpl. destruct (all_by f b) eqn:E;
      [now apply rstrip_by_all | reflexivity].
  - rewrite app_cons. cbn [rstrip_by all_by]. rewrite all_by_app, IH.
    destruct (all_by f b); simpl.
    + now rewrite andb_true_r.
    + now rewrite !andb_false_r.
Qed.

Lemma all_by_rstrip (s : str) : all_by f (rstrip_by f s) = all_by f s.
Proof.
  induction s as [|c s IH]; [reflexivity |].
  cbn [rstrip_by]. destruct (all_by f (c :: s)) eqn:E; [reflexivity |].
  cbn [all_by] in *. now rewrite IH.
Qed.

Lemma rstrip_by_idem (s : str) :
  rstrip_by f (rstrip_by f s) = rstrip_by f s.
Proof.
  induction s as [|c s IH]; [reflexivity |].
  cbn [rstrip_by]. destruct (all_by f (c :: s)) eqn:E; [reflexivity |].
  cbn [rstrip_by]. cbn [all_by] in *. rewrite all_by_rstrip, E.
  now rewrite IH.
Qed.

(* a string that does not start with a stripped character is left alone
   on the left, also after its right end was stripped *)
Lemma lstrip_by_first (s : str) (a : N) :
  first_char s = Some a -> f a = false -> lstrip_by f s = s.
Proof.
  destruct s as [|c s]; [discriminate |]. cbn. intros [= ->] ->. reflexivity.
Qed.

Lemma lstrip_by_head (s : str) :
  lstrip_by f s = [] \/
  exists a, first_char (lstrip_by f s) = Some a /\ f a = false.
Proof.
  induction s as [|c s IH]; [now left |].
  cbn [lstrip_by]. destruct (f c) eqn:E; [exact IH |].
  right. exists c. now split.
Qed.

Lemma first_char_rstrip (s : str) (a : N) :
  first_char s = Some a -> f a = false ->
  first_char (rstrip_by f s) = Some a.
Proof.
  destruct s as [|c s]; [discriminate |]. cbn [first_char].
  intros [= ->] Ha. cbn [rstrip_by all_by]. now rewrite Ha.
Qed.

Lemma all_by_last (s : str) (b : N) :
  last_char s = Some b -> f b = false -> all_by f s = false.
Proof.
  induction s as [|c s IH]; [discriminate |].
  destruct s as [|d s].
  - cbn. intros [= ->] ->. reflexivity.
  - intros Hl Hb. change (all_by f (c :: d :: s))
      with (f c && all_by f (d :: s)).
    rewrite (IH Hl Hb). apply andb_false_r.
Qed.

Lemma rstrip_by_last (s : str) (b : N) :
  last_char s = Some b -> f b = false -> rstrip_by f s = s.
Proof.
  induction s as [|c s IH]; [discriminate |].
  intros Hl Hb. cbn [rstrip_by]. rewrite (all_by_last _ _ Hl Hb).
  destruct s as [|d s]; [reflexivity |].
  f_equal. now apply IH.
Qed.

(* stripping twice is stripping once *)
Lemma strip_by_idem (s : str) :
  rstrip_by f (lstrip_by f (rstrip_by f (lstrip_by f s))) =
  rstrip_by f (lstrip_by f s).
Proof.
  destruct (lstrip_by_head s) as [-> | (a & Ha & Hfa)]; [reflexivity |].
  rewrite (lstrip_by_first _ a (first_char_rstrip _ _ Ha Hfa) Hfa).
  apply rstrip_by_idem.
Qed.

(* what is wrapped in stripped characters comes out as it is *)
Lemma strip_by_wrapped (l x r : str) (a b : N) :
  all_by f l = true -> all_by f r = true ->
  first_char x = Some a -> f a = false ->
  last_char x = Some b -> f b = false ->
  rstrip_by f (lstrip_by f (l +:+ x +:+ r)) = x.
Proof.
  intros Hl Hr Ha Hfa Hb Hfb.
  rewrite lstrip_by_app, Hl.
  assert (Hx : lstrip_by f (x +:+ r) = x +:+ r).
  { destruct x as [|c x]; [discriminate |]. cbn in Ha. injection Ha as ->.
    rewrite app_cons. cbn [lstrip_by]. now rewrite Hfa. }
  rewrite Hx, rstrip_by_app, Hr. now apply (rstrip_by_last x b).
Qed.

End By.

(* str.strip() is the strip of the white-space characters *)
Lemma all_space_all_by (s : str) : all_space s = all_by is_space s.
Proof. induction s as [|c s IH]; [reflexivity |]. cbn. now rewrite IH. Qed.

Lemma lstrip_lstrip_by (s : str) : lstrip s = lstrip_by is_space s.
Proof.
  induction s as [|c s IH]; [reflexivity |]. cbn. now rewrite IH.
Qed.

Lemma rstrip_rstrip_by (s : str) : rstrip s = rstrip_by is_space s.
Proof.
  induction s as [|c s IH]; [reflexivity |].
  cbn [rstrip rstrip_by]. now rewrite all_space_all_by, IH.
Qed.

Lemma strip_strip_by (s : str) :
  strip s = rstrip_by is_space (lstrip_by is_space s).
Proof. unfold strip. now rewrite rstrip_rstrip_by, lstrip_lstrip_by. Qed.

Lemma strip_idem (s : str) : strip (strip s) = strip s.
Proof. rewrite !strip_strip_by. apply strip_by_idem. Qed.

Lemma app_length (a b : str) :
  length (a +:+ b) = length a + length b.
Proof. apply List.length_app. Qed.

Lemma py_take_drop (n : nat) (s : str) : py_take n s +:+ py_drop n s = s.
Proof.
  revert s; induction n as [|n IH]; intros [|c s]; cbn; try reflexivity.
  now rewrite IH.
Qed.

Lemma py_take_length (n : nat) (s : str) :
  n <= length s -> length (py_take n s) = n.
Proof.
  revert s; induction n as [|n IH]; intros [|c s]; cbn; intros H;
    try reflexivity; try lia.
  rewrite IH; lia.
Qed.

Lemma py_drop_length (n : nat) (s : str) :
  length (py_drop n s) = length s - n.
Proof.
  revert s; induction n as [|n IH]; intros [|c s]; cbn; try reflexivity.
  apply IH.
Qed.


Lemma py_drop_drop (n m : nat) (s : str) :
  py_drop n (py_drop m s) = py_drop (m + n) s.
Proof.
  revert s; induction m as [|m IH]; intros s; [reflexivity |].
  destruct s as [|c s]; cbn.
  - now destruct n.
  - apply IH.
Qed.

End StripFacts.

Module ObserveFacts.

Import PyStr PyStrFacts Extract ExtractFacts Observe.

Lemma count_app (f : event -> bool) (l1 l2 : list event) :
  count f (l1 ++ l2) = count f l1 + count f l2.
Proof. unfold count. now rewrite List.filter_app, List.length_app. Qed.

Lemma count_direct_events (f : event -> bool) (pages : list page) :
  (forall i, f (EvExtractText i) = false) ->
  forall i, count f (direct_events i pages) = 0.
Proof.
  intros Hf. unfold count.
  induction pages as [|[t|e] rest IH]; intros i; cbn; rewrite ?Hf; auto.
Qed.

Lemma count_ocr_events (f : event -> bool) (images : list image) :
  (forall i, f (EvOcr i) = false) ->
  forall i, count f (ocr_events i images) = 0.
Proof.
  intros Hf. unfold count.
  induction images as [|[t|e] rest IH]; intros i; cbn; rewrite ?Hf; auto.
Qed.

Lemma count_stage1 (f : event -> bool) (pdf : pdf_file) :
  (forall i, f (EvExtractText i) = false) ->
  (forall s, f (EvPrint s) = false) ->
  count f (stage1_log pdf) = count f [EvOpen].
Proof.
  intros Hx Hp. unfold stage1_log.
  change (EvOpen :: ?l) with ([EvOpen] ++ l)%list.
  rewrite !count_app.
  assert (H1 : count f match pdfplumber_open pdf with
                       | inl _ => []
                       | inr pages => direct_events 0 pages
                       end = 0).
  { destruct (pdfplumber_open pdf); [reflexivity |].
    now apply count_direct_events. }
  assert (H2 : count f match stage1_error pdf with
                       | Some e => [EvPrint ("Direct text extraction failed: " +:+ e)]
                       | None => []
                       end = 0).
  { destruct (stage1_error pdf); [| reflexivity]. unfold count.
    cbn [List.filter]. now rewrite Hp. }
  rewrite H1, H2. now rewrite !Nat.add_0_r.
Qed.

Lemma count_stage2 (f : event -> bool) (pdf : pdf_file) :
  (forall i, f (EvOcr i) = false) ->
  (forall s, f (EvPrint s) = false) ->
  count f (stage2_log pdf) = count f [EvConvert].
Proof.
  intros Hx Hp. unfold stage2_log.
  change (EvPrint ?s :: EvConvert :: ?l)
    with ([EvPrint s] ++ [EvConvert] ++ l)%list.
  rewrite !count_app.
  assert (H1 : count f match convert_from_path pdf with
                       | inl _ => []
                       | inr images => ocr_events 0 images
                       end = 0).
  { destruct (convert_from_path pdf); [reflexivity |].
    now apply count_ocr_events. }
  assert (H2 : count f match stage2_error pdf with
                       | Some e => [EvPrint ("OCR failed: " +:+ e)]
                       | None => []
                       end = 0).
  { destruct (stage2_error pdf); [| reflexivity]. unfold count.
    cbn [List.filter]. now rewrite Hp. }
  assert (H3 : count f [EvPrint "Falling back to OCR for image-based PDF."] = 0).
  { unfold count. cbn [List.filter]. now rewrite Hp. }
  rewrite H1, H2, H3. now rewrite !Nat.add_0_r.
Qed.

Lemma extract_calls_app (l1 l2 : list event) :
  extract_calls (l1 ++ l2) = (extract_calls l1 ++ extract_calls l2)%list.
Proof. apply omap_app. Qed.

Lemma extract_calls_ocr_events (images : list image) : forall i,
  extract_calls (ocr_events i images) = [].
Proof. induction images as [|[t|e] rest IH]; intros i; cbn; auto. Qed.

(* the loop stops at the page that raises *)
Lemma direct_events_broken (before after : list page) (e : str) :
  Forall page_returns before ->
  forall i,
    extract_calls (direct_events i (before ++ PageRaises e :: after)) =
    seq i (S (length before)).
Proof.
  induction 1 as [|p rest [t ->] _ IH]; intros i; [reflexivity |].
  cbn [List.app direct_events length seq]. unfold extract_calls in *.
  cbn. now rewrite IH.
Qed.

Lemma direct_text_broken (before after : list page) (e : str) :
  Forall page_returns before ->
  direct_text (before ++ PageRaises e :: after) = text_layers before /\
  direct_error (before ++ PageRaises e :: after) = Some e.
Proof.
  unfold text_layers.
  induction 1 as [|p rest [t ->] _ [IH1 IH2]]; [split; reflexivity |].
  cbn [List.app direct_text direct_error map]. rewrite join_empty_cons.
  split; [| exact IH2]. destruct t; cbn [page_layer]; now rewrite IH1.
Qed.

Lemma extract_calls_stage2 (pdf : pdf_file) :
  extract_calls (stage2_log pdf) = [].
Proof.
  unfold stage2_log.
  change (EvPrint ?s :: EvConvert :: ?l)
    with ([EvPrint s; EvConvert] ++ l)%list.
  rewrite !extract_calls_app.
  destruct (convert_from_path pdf); destruct (stage2_error pdf);
    rewrite ?extract_calls_ocr_events; reflexivity.
Qed.

End ObserveFacts.

Module DiagnosticFacts.

Import PyStr PyStrFacts Select Analyze AnalyzeFacts StripFacts.

(* The line of the unclassified branch, lower-cased: the words put before
   the message hold no capital sigma and end with a blank, so the message
   is lowered as if it stood alone. *)
Lemma lower_error_line (e : str) :
  lower ("❌ Error: " +:+ e) = lower "❌ Error: " +:+ lower e.
Proof.
  unfold lower.
  rewrite (lower_from_sigma_free "❌ Error: " e false)
    by (vm_compute; reflexivity).
  replace (state_after false "❌ Error: ") with false
    by (vm_compute; reflexivity).
  reflexivity.
Qed.

Lemma lowered_error_words :
  lower "❌ Error: " = [10060; 32; 101; 114; 114; 111; 114; 58; 32]%N.
Proof. vm_compute. reflexivity. Qed.

(* "api key" cannot begin inside the words put before the message *)
Lemma api_key_in_error_line (e : str) :
  py_in "api key" (lower ("❌ Error: " +:+ e)) = py_in "api key" (lower e).
Proof.
  rewrite lower_error_line, lowered_error_words.
  replace (utf8 "api key") with [97; 112; 105; 32; 107; 101; 121]%N
    by (vm_compute; reflexivity).
  generalize (lower e) as m. intros m.
  cbn [List.app py_in startswith N.eqb Pos.eqb andb orb].
  reflexivity.
Qed.

Lemma quota_in_error_line (e : str) :
  py_in "quota" (lower ("❌ Error: " +:+ e)) = py_in "quota" (lower e).
Proof.
  rewrite lower_error_line, lowered_error_words.
  replace (utf8 "quota") with [113; 117; 111; 116; 97]%N
    by (vm_compute; reflexivity).
  generalize (lower e) as m. intros m.
  cbn [List.app py_in startswith N.eqb Pos.eqb andb orb].
  reflexivity.
Qed.

Lemma is_quota_false_quota (m : str) :
  is_quota m = false -> py_in "quota" m = false.
Proof.
  unfold is_quota. intros H.
  destruct (py_in "quota" m); [discriminate | reflexivity].
Qed.

Lemma job_block_length (jd : str) : 0 < length (job_block jd).
Proof.
  unfold job_block. rewrite app_length.
  assert (H : 0 < length job_head) by (vm_compute; lia).
  lia.
Qed.

End DiagnosticFacts.

Module ConfigFacts.

Import PyStr PyStrFacts Config StripFacts.

Lemma all_by_in_chars_nil (chars : str) :
  all_by (in_chars chars) [] = true.
Proof. reflexivity. Qed.

Lemma last_char_snoc (a : str) (c : N) :
  last_char (a +:+ [c]) = Some c.
Proof.
  induction a as [|d a IH]; [reflexivity |].
  rewrite app_cons. cbn [last_char]. rewrite IH.
  destruct (a +:+ [c]) eqn:E; [| reflexivity].
  destruct a; discriminate.
Qed.

Lemma first_char_app (a b : str) (c : N) :
  first_char a = Some c -> first_char (a +:+ b) = Some c.
Proof. destruct a; [discriminate |]. now rewrite app_cons. Qed.

(* a string with clean ends passes the three strips unchanged *)
Lemma strip_clean (s : str) : clean_ends s = true -> strip s = s.
Proof.
  unfold clean_ends. destruct (first_char s) as [a|] eqn:Ha; [| discriminate].
  destruct (last_char s) as [b|] eqn:Hb; [| discriminate].
  unfold key_char. intros H.
  apply andb_true_iff in H as [H1 H2].
  apply andb_true_iff in H1 as [H1 _]. apply andb_true_iff in H1 as [H1 _].
  apply andb_true_iff in H2 as [H2 _]. apply andb_true_iff in H2 as [H2 _].
  apply negb_true_iff in H1, H2.
  rewrite strip_strip_by, (lstrip_by_first _ _ _ Ha H1).
  now apply (rstrip_by_last _ s b).
Qed.

Lemma strip_dquote_clean (s : str) :
  clean_ends s = true -> strip_chars dquote s = s.
Proof.
  unfold clean_ends. destruct (first_char s) as [a|] eqn:Ha; [| discriminate].
  destruct (last_char s) as [b|] eqn:Hb; [| discriminate].
  unfold key_char. intros H.
  apply andb_true_iff in H as [H1 H2].
  apply andb_true_iff in H1 as [H1 _]. apply andb_true_iff in H1 as [_ H1].
  apply andb_true_iff in H2 as [H2 _]. apply andb_true_iff in H2 as [_ H2].
  apply negb_true_iff in H1, H2.
  unfold strip_chars. rewrite (lstrip_by_first _ _ _ Ha H1).
  now apply (rstrip_by_last _ s b).
Qed.

Lemma strip_squote_clean (s : str) :
  clean_ends s = true -> strip_chars squote s = s.
Proof.
  unfold clean_ends. destruct (first_char s) as [a|] eqn:Ha; [| discriminate].
  destruct (last_char s) as [b|] eqn:Hb; [| discriminate].
  unfold key_char. intros H.
  apply andb_true_iff in H as [H1 H2].
  apply andb_true_iff in H1 as [_ H1].
  apply andb_true_iff in H2 as [_ H2].
  apply negb_true_iff in H1, H2.
  unfold strip_chars. rewrite (lstrip_by_first _ _ _ Ha H1).
  now apply (rstrip_by_last _ s b).
Qed.

Lemma normalize_clean (s : str) :
  clean_ends s = true -> normalize_key s = s.
Proof.
  intros H. unfold normalize_key.
  now rewrite (strip_clean s H), (strip_dquote_clean s H),
    (strip_squote_clean s H).
Qed.

Lemma clean_ends_truthy (s : str) : clean_ends s = true -> truthy s = true.
Proof. destruct s; [discriminate | reflexivity]. Qed.

Lemma clean_ends_parts (s : str) :
  clean_ends s = true ->
  exists a b, first_char s = Some a /\ last_char s = Some b /\
              key_char a = true /\ key_char b = true.
Proof.
  unfold clean_ends. destruct (first_char s) as [a|]; [| discriminate].
  destruct (last_char s) as [b|]; [| discriminate].
  intros H. apply andb_true_iff in H as [H1 H2].
  exists a, b. repeat split; assumption.
Qed.

Lemma key_char_parts (c : N) :
  key_char c = true ->
  is_space c = false /\ in_chars dquote c = false /\ in_chars squote c = false.
Proof.
  unfold key_char. intros H.
  apply andb_true_iff in H as [H H3]. apply andb_true_iff in H as [H1 H2].
  apply negb_true_iff in H1, H2, H3. auto.
Qed.

(* a key with clean ends between two quote characters *)
Lemma quoted_ends (q : N) (k : str) :
  first_char ([q] +:+ k +:+ [q]) = Some q /\
  last_char ([q] +:+ k +:+ [q]) = Some q.
Proof.
  split; [reflexivity |].
  rewrite <- app_assoc. apply last_char_snoc.
Qed.

End ConfigFacts.

(* ===================================================================== *)
(* The text extractor                                                    *)
(* ===================================================================== *)

Section TextExtractor.

Import PyStr PyStrFacts Extract ExtractFacts Samples.

(** C4: when direct extraction goes through every page without raising and
    the trimmed concatenation of the per-page text layers is not empty,
    extract_text_from_pdf returns exactly that trimmed concatenation, and
    the trace holds no OCR event (neither rendering nor recognition). *)
Theorem text_layer_is_returned_without_ocr
    (pdf : pdf_file) (pages : list page) :
  pdfplumber_open pdf = inr pages ->
  Forall page_returns pages ->
  strip (text_layers pages) <> [] ->
  exists st,
    Extract.run pdf = (st, Val (strip (text_layers pages))) /\
    forallb (fun e => negb (is_ocr_event e)) (log st) = true.
Proof.
  intros Hopen Hret Hne.
  rewrite run_closed_form.
  unfold fast_path, stage1_log, stage1_error, stage1_text. rewrite Hopen.
  rewrite (direct_error_none _ Hret), (direct_text_layers _ Hret).
  apply truthy_true_iff in Hne. rewrite Hne.
  eexists; split; [reflexivity |]. cbn [log].
  rewrite List.app_nil_r. cbn [forallb is_ocr_event negb andb].
  apply direct_events_no_ocr.
Qed.

Lemma text_layer_is_returned_without_ocr_witness :
  exists st,
    Extract.run text_pdf = (st, Val (utf8 "Jane Doe Python, AWS")) /\
    forallb (fun e => negb (is_ocr_event e)) (log st) = true.
Proof.
  apply (text_layer_is_returned_without_ocr text_pdf
           [PageText (Some (utf8 "Jane Doe ")); PageText None;
            PageText (Some (utf8 "Python, AWS"))]).
  - reflexivity.
  - repeat (constructor; [eexists; reflexivity |]). constructor.
  - vm_compute. discriminate.
Defined.

(** C5, as stated, fails: no page has a text layer and three pages are
    rendered, but OCR raises on the second one; the third is never handed
    to OCR and the value returned is the output of the first page alone. *)
Lemma ocr_stops_at_the_page_that_fails :
  pdfplumber_open ocr_breaks_pdf
    = inr [PageText None; PageText None; PageText None] /\
  convert_from_path ocr_breaks_pdf
    = inr [OcrText "Jane Doe"; OcrRaises "recognition failed";
           OcrText "Python, AWS"] /\
  ocr_calls (log (fst (Extract.run ocr_breaks_pdf))) = [0; 1] /\
  snd (Extract.run ocr_breaks_pdf) = Val (utf8 "Jane Doe").
Proof. repeat split; vm_compute; reflexivity. Qed.



(** C6, as stated, fails: direct extraction breaks on the second page
    after the first gave "Jane Doe", OCR fails too, and the function
    returns "Jane Doe", not the empty string. *)
Lemma both_stages_fail_text_survives :
  stage1_error half_read_pdf = Some (utf8 "malformed page") /\
  stage2_error half_read_pdf = Some (utf8 "tesseract is not installed") /\
  snd (Extract.run half_read_pdf) = Val (utf8 "Jane Doe") /\
  snd (Extract.run half_read_pdf) <> Val [].
Proof. repeat split. vm_compute. discriminate. Qed.

(** C6 (amended): when neither stage gathers anything but white space
    (the text it accumulates until it ends or breaks trims to the empty
    string), extract_text_from_pdf returns the empty string; it returns a
    value and does not raise. *)
Theorem nothing_extracted_gives_empty_string (pdf : pdf_file) :
  strip (stage1_text pdf) = [] ->
  strip (stage2_text pdf) = [] ->
  exists st, Extract.run pdf = (st, Val []).
Proof.
  intros H1 H2. rewrite run_closed_form. unfold fast_path.
  rewrite H1. cbn [truthy].
  assert (Hs : strip (stage1_text pdf +:+ stage2_text pdf) = []).
  { apply strip_empty_iff. rewrite all_space_app.
    apply strip_empty_iff in H1, H2. now rewrite H1, H2. }
  rewrite Hs. destruct (stage1_error pdf); eexists; reflexivity.
Qed.

Lemma nothing_extracted_gives_empty_string_witness :
  exists st, Extract.run blank_pdf = (st, Val []).
Proof.
  apply (nothing_extracted_gives_empty_string blank_pdf); reflexivity.
Defined.

(** C9: when a stage of extract_text_from_pdf raises (opening the file, a
    page, rendering, or OCR of an image), the call still returns a value;
    the text accumulated before the failure stays in text, the OCR stage
    still runs after a failed direct stage, and the value returned is the
    trimmed text of both stages as far as they got. *)
Theorem stage_failure_is_caught (pdf : pdf_file) (e : str) :
  stage1_error pdf = Some e \/
  (fast_path pdf = false /\ stage2_error pdf = Some e) ->
  exists st,
    Extract.run pdf = (st, Val (strip (text st))) /\
    text st = stage1_text pdf +:+ stage2_text pdf /\
    In EvConvert (log st) /\
    (stage1_error pdf = Some e ->
     In (EvPrint ("Direct text extraction failed: " +:+ e)) (log st)) /\
    (stage2_error pdf = Some e ->
     In (EvPrint ("OCR failed: " +:+ e)) (log st)).
Proof.
  intros H. rewrite run_closed_form.
  assert (Hfast : fast_path pdf = false).
  { destruct H as [H | [H _]]; [| exact H]. unfold fast_path. now rewrite H. }
  rewrite Hfast.
  exists {| text := stage1_text pdf +:+ stage2_text pdf;
            log := stage1_log pdf ++ stage2_log pdf |}.
  cbn [text log]. split; [reflexivity |]. split; [reflexivity |].
  unfold stage1_log, stage2_log. repeat split.
  - apply in_or_app. right. right. left. reflexivity.
  - intros ->. apply in_or_app. left. right.
    apply in_or_app. right. left. reflexivity.
  - intros ->. apply in_or_app. right. right. right.
    apply in_or_app. right. left. reflexivity.
Qed.

Lemma stage_failure_is_caught_witness :
  exists st,
    Extract.run half_read_pdf = (st, Val (strip (text st))) /\
    text st = utf8 "Jane Doe" /\
    In EvConvert (log st) /\
    (stage1_error half_read_pdf = Some (utf8 "malformed page") ->
     In (EvPrint "Direct text extraction failed: malformed page") (log st)) /\
    (stage2_error half_read_pdf = Some (utf8 "malformed page") ->
     In (EvPrint "OCR failed: malformed page") (log st)).
Proof.
  apply (stage_failure_is_caught half_read_pdf "malformed page").
  left. reflexivity.
Defined.

End TextExtractor.

(* ===================================================================== *)
(* The model selector                                                    *)
(* ===================================================================== *)

Section ModelSelector.

Import PyStr PyStrFacts Select SelectFacts Samples.

(** C2, as stated, fails: the first listed entry whose capability list
    matches "generate" has the empty name; the function passes it over and
    returns the name of the second entry. *)
Lemma unnamed_entry_is_passed_over :
  entry_name <$> first_such has_generate (yielded unnamed_first)
    = Some (VStr []) /\
  Select.run (failing_service unnamed_first "unused") None
    = ([CallListModels], Val (VStr "models/gemini-pro")).
Proof. split; vm_compute; reflexivity. Qed.

(** C2 (amended): select_supported_model returns the name of the first
    listed entry, in listed order, that has a non-empty name and whose
    capability list holds an element containing "generate" in any case of
    letters; keyed records and attribute-bearing objects are read alike;
    and when the listing call raises, it returns the first entry of the
    preference list. *)
Theorem first_named_generating_entry_is_selected
    (env : remote) (preferred_list : option (list str)) :
  (forall m,
     first_such named_generate (yielded (list_models env)) = Some m ->
     Select.run env preferred_list = ([CallListModels], Val (entry_name m))) /\
  (forall d,
     entry_name (DictEntry d) = entry_name (ObjEntry d) /\
     named_generate (DictEntry d) = named_generate (ObjEntry d)) /\
  (forall e n rest,
     list_models env = {| yielded := []; raised := Some e |} ->
     pref_of preferred_list = n :: rest ->
     Select.run env preferred_list = ([CallListModels], Val (VStr n))).
Proof.
  unfold Select.run. rewrite select_run. cbn [List.app].
  unfold selected. rewrite scan_first_such.
  repeat split.
  - intros m ->. reflexivity.
  - intros e n rest -> ->. reflexivity.
Qed.

Lemma first_named_generating_entry_is_selected_witness :
  Select.run (failing_service mixed_listing "unused") None
    = ([CallListModels], Val (VStr "models/gemini-pro")) /\
  Select.run (failing_service listing_raises "unused") None
    = ([CallListModels], Val (VStr "gemini-2.5-pro")).
Proof.
  split.
  - destruct (first_named_generating_entry_is_selected
                (failing_service mixed_listing "unused") None) as (H & _ & _).
    rewrite (H (ObjEntry {[ "name" := VStr "models/gemini-pro";
                            "methods" := VList (strs ["GenerateContent"; "countTokens"]) ]}));
      vm_compute; reflexivity.
  - destruct (first_named_generating_entry_is_selected
                (failing_service listing_raises "unused") None) as (_ & _ & H).
    apply (H "listing unavailable" "gemini-2.5-pro"
             (strs ["gemini-pro"; "gemini-2.5-flash"; "gemini-1.5";
                    "gemini-1.5-flash"]));
      reflexivity.
Defined.

End ModelSelector.

(* ===================================================================== *)
(* The analyzer                                                          *)
(* ===================================================================== *)

Section Analyzer.

Import PyStr PyStrFacts Select SelectFacts Analyze AnalyzeFacts Samples.

Variable repr_list : list str -> str.

(** C3: with the empty resume text analyze_resume returns at once the
    input-validation result  {"error": "Resume text is required for
    analysis."}  and the trace of remote calls is empty: no listing, no
    model construction, no generation request. *)
Theorem empty_resume_is_rejected_before_any_call
    (env : remote) (job_description : option str) :
  Analyze.run repr_list env [] job_description =
  ([], Val (RDict {[ "error" := ("Resume text is required for analysis." : str) ]})).
Proof. reflexivity. Qed.

(** C10: under the default preference list select_supported_model returns
    a value that is not None (and not false at line 453), whether the
    listing matches, does not match, or raises; hence analyze_resume never
    raises the "No suitable model found" error. *)
Theorem default_selection_is_never_none (env : remote) :
  (exists name,
     Select.run env None = ([CallListModels], Val name) /\
     name <> VNone /\ py_truthy name = true) /\
  (forall resume_text job_description,
     snd (Analyze.run repr_list env resume_text job_description)
       <> Exc (RuntimeError no_model_message)).
Proof.
  split.
  - exists (selected env None). unfold Select.run. rewrite select_run.
    pose proof (selected_default_truthy env) as Ht.
    split; [reflexivity |]. split; [| exact Ht].
    intros Hn. rewrite Hn in Ht. discriminate.
  - intros resume_text jd.
    destruct (truthy resume_text) eqn:Hres.
    + rewrite (analyze_run _ _ _ _ Hres). cbv zeta.
      destruct (GenerativeModel env (selected env None)) as [e|]; cbn [snd].
      * intros H. apply RuntimeError_inj in H.
        now apply init_failure_not_no_model in H.
      * destruct (generate_content env (selected env None)
                    (compose_prompt resume_text jd)) as [e|r]; cbn [snd].
        -- intros H. apply RuntimeError_inj in H.
           now apply diagnostic_not_no_model in H.
        -- unfold analysis_of. destruct (resp_text r); discriminate.
    + apply truthy_false_iff in Hres. subst resume_text. discriminate.
Qed.

(** C7: for a resume text and a job description that are both non-empty,
    the prompt analyze_resume composes is the resume block followed by the
    job-description block: it holds the resume text and, after it, the job
    description; whenever the model is constructed, this prompt, and no
    other, is handed to generate_content. *)
Theorem prompt_holds_resume_then_job_description
    (resume_text jd : str) :
  truthy resume_text = true ->
  truthy jd = true ->
  compose_prompt resume_text (Some jd)
    = resume_block resume_text +:+ job_block jd /\
  (exists a b c,
     compose_prompt resume_text (Some jd)
       = a +:+ resume_text +:+ b +:+ jd +:+ c) /\
  py_in resume_text (resume_block resume_text) = true /\
  py_in jd (job_block jd) = true /\
  (forall env,
     GenerativeModel env (selected env None) = None ->
     prompts_sent (fst (Analyze.run repr_list env resume_text (Some jd)))
       = [compose_prompt resume_text (Some jd)]) /\
  (forall env,
     Forall (fun p => p = compose_prompt resume_text (Some jd))
       (prompts_sent
          (fst (Analyze.run repr_list env resume_text (Some jd))))).
Proof.
  intros Hres Hjd.
  split; [| split; [| split; [| split; [| split]]]].
  - unfold compose_prompt, jd_truthy. now rewrite Hjd.
  - exists resume_head, (resume_tail +:+ job_head), job_tail.
    now apply compose_prompt_with_jd.
  - apply py_in_app.
  - apply py_in_app.
  - intros env Hinit. rewrite (analyze_run _ _ _ _ Hres). cbv zeta.
    rewrite Hinit.
    destruct (generate_content env (selected env None)
                (compose_prompt resume_text (Some jd))); reflexivity.
  - intros env. rewrite (analyze_run _ _ _ _ Hres). cbv zeta.
    destruct (GenerativeModel env (selected env None)); cbn [fst].
    + constructor.
    + destruct (generate_content env (selected env None)
                  (compose_prompt resume_text (Some jd))); cbn [fst];
        repeat constructor.
Qed.

(** C1 (amended): when the resume text is not empty, the generation
    request raises an exception whose message holds "quota" and "429", and
    the lower-cased message matches neither the invalid-key test of line
    489 nor the permission test of line 493 ("permission denied", "403"),
    the diagnostic raised is the quota text: it offers the four remedies
    (wait, enable billing, request an increase, use another key) and holds
    neither the quick-fix checklist nor the unclassified-error line. *)
Theorem quota_error_gets_quota_guidance
    (env : remote) (resume_text : str) (jd : option str) (e : str) :
  truthy resume_text = true ->
  GenerativeModel env (selected env None) = None ->
  generate_content env (selected env None) (compose_prompt resume_text jd)
    = inl e ->
  py_in "quota" e = true ->
  py_in "429" e = true ->
  is_invalid_key (lower e) = false ->
  is_permission (lower e) = false ->
  exists d,
    snd (Analyze.run repr_list env resume_text jd) = Exc (RuntimeError d) /\
    d = join nl quota_details /\
    shows_quota_guidance d = true /\
    shows_checklist d = false /\
    shows_raw_error d = false.
Proof.
  intros Hres Hinit Hgen Hq _ Hk Hp.
  rewrite (analyze_run _ _ _ _ Hres). cbv zeta. rewrite Hinit, Hgen.
  cbn [snd]. exists (diagnostic e). split; [reflexivity |].
  assert (Hd : diagnostic e = join nl quota_details).
  { unfold diagnostic, error_details. rewrite (classify_quota e Hk Hp).
    - vm_compute. reflexivity.
    - unfold is_quota.
      rewrite (py_in_lower "quota" e ltac:(vm_compute; reflexivity) Hq).
      reflexivity. }
  rewrite Hd. split; [reflexivity |].
  split; [| split]; vm_compute; reflexivity.
Qed.

(** C8: an evaluation.  "Connection timed out" matches none of the four
    tests; the error raised is the line "Error: Connection timed out"
    with the cross mark and nothing else: the quick-fix checklist is not
    there. *)
Theorem unclassified_error_comes_without_checklist :
  let e : str := "Connection timed out" in
  is_invalid_key (lower e) = false /\
  is_permission (lower e) = false /\
  is_quota (lower e) = false /\
  is_billing (lower e) = false /\
  snd (Analyze.run repr_list (failing_service listing_raises e)
         "5 years Python, AWS, Docker" None)
    = Exc (RuntimeError "❌ Error: Connection timed out") /\
  shows_checklist "❌ Error: Connection timed out" = false.
Proof.
  cbv zeta.
  split; [| split; [| split; [| split; [| split]]]]; vm_compute; reflexivity.
Qed.

End Analyzer.

Section AnalyzerSamples.

Import PyStr PyStrFacts Select Analyze AnalyzeFacts Samples.

(** C1, as stated, fails: the message holds "quota" and "429" and also
    "403" (in a project number); line 493 comes first, and the diagnostic
    is the permission text with the quick-fix checklist, without the quota
    remedies. *)
Lemma quota_message_read_as_permission :
  let e : str := "429 quota exceeded for project 140358" in
  py_in "quota" e = true /\ py_in "429" e = true /\
  exists d,
    snd (Analyze.run no_repr (failing_service listing_raises e)
           "5 years Python, AWS, Docker" None) = Exc (RuntimeError d) /\
    shows_quota_guidance d = false /\
    shows_checklist d = true.
Proof.
  cbv zeta. split; [vm_compute; reflexivity |].
  split; [vm_compute; reflexivity |].
  exists (diagnostic "429 quota exceeded for project 140358").
  split; [| split]; vm_compute; reflexivity.
Qed.

Lemma prompt_holds_resume_then_job_description_witness :
  prompts_sent
    (fst (Analyze.run no_repr (answering_service listing_raises "Strong match")
            "5 years Python, AWS, Docker"
            (Some (utf8 "Looking for a backend engineer with Python and cloud experience"))))
  = [compose_prompt "5 years Python, AWS, Docker"
       (Some (utf8 "Looking for a backend engineer with Python and cloud experience"))].
Proof.
  destruct (prompt_holds_resume_then_job_description no_repr
              "5 years Python, AWS, Docker"
              "Looking for a backend engineer with Python and cloud experience"
              eq_refl eq_refl) as (_ & _ & _ & _ & H & _).
  apply (H (answering_service listing_raises "Strong match")).
  reflexivity.
Defined.

Lemma quota_error_gets_quota_guidance_witness :
  exists d,
    snd (Analyze.run no_repr
           (failing_service listing_raises
              "429 You exceeded your current quota, please check your plan")
           "5 years Python, AWS, Docker" None) = Exc (RuntimeError d) /\
    d = join nl quota_details /\
    shows_quota_guidance d = true /\
    shows_checklist d = false /\
    shows_raw_error d = false.
Proof.
  apply (quota_error_gets_quota_guidance no_repr
           (failing_service listing_raises
              "429 You exceeded your current quota, please check your plan")
           "5 years Python, AWS, Docker" None
           "429 You exceeded your current quota, please check your plan");
    vm_compute; reflexivity.
Defined.

(* The scenario of the specification, end to end: the answer of the
   service comes back trimmed, after one request of each kind. *)
Example backend_engineer_scenario :
  Analyze.run no_repr
    (answering_service listing_raises "  Strong match, add Kubernetes ")
    "5 years Python, AWS, Docker"
    (Some (utf8 "Looking for a backend engineer with Python and cloud experience"))
  = ([CallListModels;
      CallGenerativeModel (VStr "gemini-2.5-pro");
      CallGenerateContent (VStr "gemini-2.5-pro")
        (compose_prompt "5 years Python, AWS, Docker"
           (Some (utf8 "Looking for a backend engineer with Python and cloud experience")))],
     Val (RText "Strong match, add Kubernetes")).
Proof. vm_compute. reflexivity. Qed.

End AnalyzerSamples.

(* ===================================================================== *)
(* Further properties of the text extractor                              *)
(* ===================================================================== *)

Section TextExtractorMore.

Import PyStr PyStrFacts Extract ExtractFacts Observe ObserveFacts StripFacts
  Samples MoreSamples.

(** X1: for every file and whatever the two libraries do,
    extract_text_from_pdf returns a value, and that value is already
    trimmed: stripping it again changes nothing. *)
Theorem extraction_returns_trimmed_text (pdf : pdf_file) :
  exists st r, Extract.run pdf = (st, Val r) /\ strip r = r.
Proof.
  rewrite run_closed_form.
  destruct (fast_path pdf); do 2 eexists; (split; [reflexivity |]);
    apply strip_idem.
Qed.

(** X2: pdfplumber.open is called exactly once in every run, and
    convert_from_path exactly once when line 430 does not return (direct
    extraction raised, or what it gathered trims to nothing) and not at
    all when it does. *)
Theorem rendering_only_without_text_layer (pdf : pdf_file) :
  exists st r,
    Extract.run pdf = (st, Val r) /\
    count is_open (log st) = 1 /\
    count is_convert (log st) = if fast_path pdf then 0 else 1.
Proof.
  rewrite run_closed_form.
  destruct (fast_path pdf); do 2 eexists; (split; [reflexivity |]);
    cbn [log]; rewrite ?count_app; split;
    rewrite ?count_stage1, ?count_stage2; try reflexivity; intros;
    reflexivity.
Qed.

(** X3: when extract_text() raises on a page, the pages after it are
    never read: extract_text() was called on the pages up to and
    including that one, and the value returned is the trimmed text of the
    pages before it followed by what the OCR stage gathered. *)
Theorem pages_after_a_failure_are_not_read
    (pdf : pdf_file) (before after : list page) (e : str) :
  pdfplumber_open pdf = inr (before ++ PageRaises e :: after)%list ->
  Forall page_returns before ->
  exists st,
    Extract.run pdf
      = (st, Val (strip (text_layers before +:+ stage2_text pdf))) /\
    extract_calls (log st) = seq 0 (S (length before)).
Proof.
  intros Hopen Hret. rewrite run_closed_form.
  destruct (direct_text_broken before after e Hret) as [Ht He].
  unfold fast_path, stage1_log, stage1_error, stage1_text.
  rewrite Hopen, He, Ht.
  eexists; split; [reflexivity |]. cbn [log].
  change (EvOpen :: ?l) with ([EvOpen] ++ l)%list.
  rewrite !extract_calls_app, extract_calls_stage2,
    (direct_events_broken before after e Hret).
  rewrite List.app_nil_r.
  change (extract_calls [EvOpen]) with (@nil nat).
  change (extract_calls [EvPrint ?s]) with (@nil nat).
  cbn [List.app]. apply List.app_nil_r.
Qed.

Lemma pages_after_a_failure_are_not_read_witness :
  exists st,
    Extract.run broken_middle_pdf
      = (st, Val (strip (text_layers [PageText (Some (utf8 "Jane Doe"))]
                         +:+ stage2_text broken_middle_pdf))) /\
    extract_calls (log st) = [0; 1].
Proof.
  apply (pages_after_a_failure_are_not_read broken_middle_pdf
           [PageText (Some (utf8 "Jane Doe"))] [PageText (Some (utf8 "Python, AWS"))]
           "malformed page").
  - vm_compute; reflexivity.
  - constructor; [eexists; reflexivity | constructor].
Defined.

(** X4: when every page is read and the text layers hold nothing but
    white space, that white space does not reach the result: the OCR stage
    runs and the value returned is the trimmed OCR text alone. *)
Theorem blank_text_layer_is_replaced_by_ocr
    (pdf : pdf_file) (pages : list page) :
  pdfplumber_open pdf = inr pages ->
  Forall page_returns pages ->
  strip (text_layers pages) = [] ->
  exists st,
    Extract.run pdf = (st, Val (strip (stage2_text pdf))) /\
    count is_convert (log st) = 1.
Proof.
  intros Hopen Hret Hblank. rewrite run_closed_form.
  assert (Ht : stage1_text pdf = text_layers pages).
  { unfold stage1_text. rewrite Hopen. now apply direct_text_layers. }
  assert (Hf : fast_path pdf = false).
  { unfold fast_path, stage1_error. rewrite Hopen, (direct_error_none _ Hret).
    now rewrite Ht, Hblank. }
  rewrite Hf, Ht.
  eexists; split.
  - rewrite strip_app_space_l; [reflexivity | now apply strip_empty_iff].
  - cbn [log]. rewrite count_app, count_stage1, count_stage2;
      try reflexivity; intros; reflexivity.
Qed.

Lemma blank_text_layer_is_replaced_by_ocr_witness :
  exists st,
    Extract.run blank_layer_pdf = (st, Val (strip (stage2_text blank_layer_pdf))) /\
    count is_convert (log st) = 1.
Proof.
  apply (blank_text_layer_is_replaced_by_ocr blank_layer_pdf
           [PageText (Some (" " +:+ nl))]).
  - vm_compute; reflexivity.
  - constructor; [eexists; reflexivity | constructor].
  - vm_compute. reflexivity.
Defined.

End TextExtractorMore.

(* ===================================================================== *)
(* Further properties of the model selector                              *)
(* ===================================================================== *)

Section ModelSelectorMore.

Import PyStr PyStrFacts Select SelectFacts Samples MoreSamples.

(** X5: whatever the listing delivers and whatever preferred_list is
    passed (none, an empty one, a custom one), select_supported_model
    makes the one listing request and returns a value that is not None:
    the  return None  of line 103 is never reached. *)
Theorem selection_is_never_none
    (env : remote) (preferred_list : option (list str)) :
  exists name,
    Select.run env preferred_list = ([CallListModels], Val name) /\
    name <> VNone.
Proof.
  exists (selected env preferred_list). unfold Select.run.
  rewrite select_run. split; [reflexivity |].
  destruct (selected_cases env preferred_list)
    as [(m & _ & -> & Hm) | (_ & n & rest & _ & ->)]; [| discriminate].
  intros Hn. rewrite Hn in Hm. discriminate.
Qed.

(** X6: the result depends on the listing only through the entries it
    yields: two services that yield the same entries give the same
    result, whether the iteration ends normally or with an exception. *)
Theorem end_of_listing_by_exception_is_an_end
    (env1 env2 : remote) (preferred_list : option (list str)) :
  yielded (list_models env1) = yielded (list_models env2) ->
  Select.run env1 preferred_list = Select.run env2 preferred_list.
Proof.
  intros H. unfold Select.run. rewrite !select_run. unfold selected.
  now rewrite H.
Qed.

Lemma end_of_listing_by_exception_is_an_end_witness :
  Select.run
    (failing_service
       {| yielded := yielded mixed_listing; raised := Some (utf8 "connection reset") |}
       "unused") None
  = Select.run (failing_service mixed_listing "unused") None.
Proof.
  apply (end_of_listing_by_exception_is_an_end
           (failing_service
              {| yielded := yielded mixed_listing;
                 raised := Some (utf8 "connection reset") |} "unused")
           (failing_service mixed_listing "unused") None).
  reflexivity.
Defined.

(** X7: the key "methods" is read only as a fallback: for an entry whose
    "supportedMethods" is a non-empty value, what is stored under
    "methods" changes neither the capability list nor whether the entry
    is selected. *)
Theorem methods_key_is_a_fallback (d : gmap string value) (v : value) :
  py_truthy (dict_get d "supportedMethods") = true ->
  entry_methods (DictEntry (<["methods" := v]> d))
    = dict_get d "supportedMethods" /\
  entry_matches (DictEntry (<["methods" := v]> d))
    = entry_matches (DictEntry d).
Proof.
  intros H.
  assert (Hor : forall b c,
             py_or (py_or (dict_get d "supportedMethods") b) c
             = dict_get d "supportedMethods").
  { intros b c. unfold py_or. rewrite H. now rewrite H. }
  assert (Hn : dict_get (<["methods" := v]> d) "name" = dict_get d "name").
  { unfold dict_get. now rewrite lookup_insert_ne. }
  assert (Hs : dict_get (<["methods" := v]> d) "supportedMethods"
               = dict_get d "supportedMethods").
  { unfold dict_get. now rewrite lookup_insert_ne. }
  assert (Hm : entry_methods (DictEntry (<["methods" := v]> d))
               = dict_get d "supportedMethods").
  { cbn [entry_methods]. rewrite Hs. apply Hor. }
  split; [exact Hm |].
  unfold entry_matches. rewrite Hm. cbn [entry_name entry_methods].
  now rewrite Hn, Hor.
Qed.

Lemma methods_key_is_a_fallback_witness :
  entry_matches
    (DictEntry (<["methods" := VList (strs ["generateContent"])]>
                  {[ "name" := VStr "models/embedding-001";
                     "supportedMethods" := VList (strs ["embedContent"]) ]}))
  = entry_matches
      (DictEntry {[ "name" := VStr "models/embedding-001";
                    "supportedMethods" := VList (strs ["embedContent"]) ]}).
Proof.
  apply (methods_key_is_a_fallback
           {[ "name" := VStr "models/embedding-001";
              "supportedMethods" := VList (strs ["embedContent"]) ]}
           (VList (strs ["generateContent"]))).
  vm_compute. reflexivity.
Defined.

(** X8: a capability value that is one str instead of a list of str is
    iterated character by character and never matches: when every listed
    entry has such a value, the first entry of the preference list is
    returned, whatever the strings say. *)
Theorem string_capabilities_never_qualify
    (env : remote) (preferred_list : option (list str)) :
  Forall (fun m => exists s, entry_methods m = VStr s)
    (yielded (list_models env)) ->
  Select.run env preferred_list
    = ([CallListModels], Val (fallback (pref_of preferred_list))).
Proof.
  intros H. unfold Select.run. rewrite select_run. unfold selected.
  rewrite scan_first_such.
  assert (Hn : first_such named_generate (yielded (list_models env)) = None).
  { induction H as [|m rest [s Hs] _ IH]; [reflexivity |].
    cbn [first_such]. unfold named_generate, has_generate.
    rewrite Hs. unfold supports_generate. cbn [elements].
    now rewrite chars_no_generate, andb_false_r. }
  now rewrite Hn.
Qed.

Lemma string_capabilities_never_qualify_witness :
  Select.run (failing_service string_capability "unused") None
    = ([CallListModels], Val (VStr "gemini-2.5-pro")).
Proof.
  apply (string_capabilities_never_qualify
           (failing_service string_capability "unused") None).
  constructor; [| constructor].
  exists (utf8 "generateContent"). vm_compute. reflexivity.
Defined.

(** X9: the case of the letters of the capability strings plays no part:
    two capability lists that agree after lower-casing make the same
    entry selected or not. *)
Theorem capability_case_is_ignored
    (d : gmap string value) (l1 l2 : list str) :
  map lower l1 = map lower l2 ->
  entry_matches (DictEntry (<["supportedMethods" := VList l1]> d))
    = entry_matches (DictEntry (<["supportedMethods" := VList l2]> d)).
Proof.
  intros H.
  assert (Hg : forall l,
             supports_generate (VList l)
             = existsb (py_in "generate") (map lower l)).
  { intros l. unfold supports_generate. cbn [elements].
    induction l as [|x l IH]; [reflexivity |].
    cbn [existsb map]. now rewrite IH. }
  assert (Hm : forall l,
             entry_methods (DictEntry (<["supportedMethods" := VList l]> d))
             = match l with
               | [] => py_or (dict_get d "methods") (VList [])
               | _ :: _ => VList l
               end).
  { intros l. cbn [entry_methods]. unfold dict_get at 1.
    rewrite lookup_insert_eq. cbn [default].
    unfold dict_get at 1. rewrite lookup_insert_ne by discriminate.
    destruct l; reflexivity. }
  assert (Hn : forall l,
             entry_name (DictEntry (<["supportedMethods" := VList l]> d))
             = dict_get d "name").
  { intros l. cbn [entry_name]. unfold dict_get.
    now rewrite lookup_insert_ne. }
  unfold entry_matches. rewrite !Hm, !Hn.
  destruct l1 as [|x1 l1], l2 as [|x2 l2]; try discriminate; [reflexivity |].
  cbn [py_truthy]. now rewrite !Hg, H.
Qed.

Lemma capability_case_is_ignored_witness :
  entry_matches
    (DictEntry (<["supportedMethods" := VList (strs ["GENERATECONTENT"])]>
                  {[ "name" := VStr "models/gemini-pro" ]}))
  = entry_matches
      (DictEntry (<["supportedMethods" := VList (strs ["generateContent"])]>
                    {[ "name" := VStr "models/gemini-pro" ]})).
Proof.
  apply (capability_case_is_ignored {[ "name" := VStr "models/gemini-pro" ]}
           (strs ["GENERATECONTENT"]) (strs ["generateContent"])).
  vm_compute. reflexivity.
Defined.

End ModelSelectorMore.

(* ===================================================================== *)
(* Further properties of the analyzer                                    *)
(* ===================================================================== *)

Section AnalyzerMore.

Import PyStr PyStrFacts Select SelectFacts Analyze AnalyzeFacts StripFacts
  DiagnosticFacts Samples MoreSamples.

Variable repr_list : list str -> str.

(** X10: with a resume text that is not empty, analyze_resume makes one
    listing request, then one model construction, then at most one
    generation request, with the composed prompt, and never a second
    attempt; when the construction raises, no generation request is made
    and the error names the model and carries the exception text. *)
Theorem one_attempt_per_analysis
    (env : remote) (resume_text : str) (jd : option str) :
  truthy resume_text = true ->
  let name := selected env None in
  let tr := fst (Analyze.run repr_list env resume_text jd) in
  (GenerativeModel env name = None ->
   tr = [CallListModels; CallGenerativeModel name;
         CallGenerateContent name (compose_prompt resume_text jd)]) /\
  (forall e,
     GenerativeModel env name = Some e ->
     Analyze.run repr_list env resume_text jd =
     ([CallListModels; CallGenerativeModel name],
      Exc (RuntimeError
             ("Failed to initialize model '" +:+ format_value repr_list name
              +:+ "': " +:+ e)))).
Proof.
  intros Hres. cbv zeta. rewrite (analyze_run _ _ _ _ Hres). cbv zeta.
  split.
  - intros ->.
    destruct (generate_content env (selected env None)
                (compose_prompt resume_text jd)); reflexivity.
  - intros e ->. reflexivity.
Qed.

(** X11: only the empty job description counts as none: with the empty
    str the prompt is the resume block alone, and with any other str,
    blank ones included, the job-description block is appended. *)
Theorem only_the_empty_job_description_is_dropped (resume_text : str) :
  compose_prompt resume_text (Some []) = compose_prompt resume_text None /\
  (forall jd,
     truthy jd = true ->
     compose_prompt resume_text (Some jd)
       = resume_block resume_text +:+ job_block jd /\
     compose_prompt resume_text (Some jd) <> compose_prompt resume_text None).
Proof.
  split; [reflexivity |].
  intros jd Hjd.
  change (compose_prompt resume_text None) with (resume_block resume_text).
  unfold compose_prompt, jd_truthy. rewrite Hjd.
  cbn [default]. split; [reflexivity |].
  intros H. apply (f_equal (@length N)) in H. rewrite List.length_app in H.
  unfold id in H. pose proof (job_block_length jd). lia.
Qed.

(** X12: an error that none of the four tests recognises is shown as it
    came, after the cross mark and "Error: "; the quick-fix checklist
    follows exactly when the lower-cased text holds "api key". *)
Theorem unclassified_error_is_shown_verbatim (e : str) :
  is_invalid_key (lower e) = false ->
  is_permission (lower e) = false ->
  is_quota (lower e) = false ->
  is_billing (lower e) = false ->
  diagnostic e =
  "❌ Error: " +:+ e +:+
  (if py_in "api key" (lower e)
   then nl +:+ join nl quick_fix_checklist
   else []).
Proof.
  intros H1 H2 H3 H4.
  rewrite (diagnostic_unclassified e H1 H2 H3 H4).
  rewrite api_key_in_error_line, quota_in_error_line.
  rewrite (is_quota_false_quota _ H3). cbn [negb]. rewrite andb_true_r.
  destruct (py_in "api key" (lower e)).
  - unfold quick_fix_checklist, strs. cbn [map]. rewrite join_cons2.
    now rewrite <- List.app_assoc.
  - now rewrite app_nil_r.
Qed.

(** X13: for the four recognised kinds of error the diagnostic is a fixed
    text, whatever else the upstream message says, and the tests are
    tried in this order: invalid key and permission denial are followed
    by the quick-fix checklist, quota and billing are not. *)
Theorem classified_errors_get_fixed_texts (e : str) :
  (is_invalid_key (lower e) = true ->
   diagnostic e = join nl (invalid_key_details ++ quick_fix_checklist)) /\
  (is_invalid_key (lower e) = false ->
   is_permission (lower e) = true ->
   diagnostic e = join nl (permission_details ++ quick_fix_checklist)) /\
  (is_invalid_key (lower e) = false ->
   is_permission (lower e) = false ->
   is_quota (lower e) = true ->
   diagnostic e = join nl quota_details) /\
  (is_invalid_key (lower e) = false ->
   is_permission (lower e) = false ->
   is_quota (lower e) = false ->
   is_billing (lower e) = true ->
   diagnostic e = join nl billing_details).
Proof.
  unfold diagnostic, error_details, classify.
  repeat split; intros;
    repeat match goal with H : _ = _ |- _ => rewrite H; clear H end;
    vm_compute; reflexivity.
Qed.

End AnalyzerMore.

Section AnalyzerMoreSamples.

Import PyStr Select Analyze Samples MoreSamples.

Lemma one_attempt_per_analysis_witness :
  Analyze.run no_repr
    (unbuildable_service listing_raises "model is not found")
    "5 years Python, AWS, Docker" None
  = ([CallListModels; CallGenerativeModel (VStr "gemini-2.5-pro")],
     Exc (RuntimeError
            "Failed to initialize model 'gemini-2.5-pro': model is not found")).
Proof.
  destruct (one_attempt_per_analysis no_repr
              (unbuildable_service listing_raises "model is not found")
              "5 years Python, AWS, Docker" None eq_refl) as [_ H].
  apply (H "model is not found"). vm_compute. reflexivity.
Defined.

Lemma only_the_empty_job_description_is_dropped_witness :
  compose_prompt "5 years Python" (Some (utf8 " "))
    <> compose_prompt "5 years Python" None.
Proof.
  destruct (only_the_empty_job_description_is_dropped "5 years Python")
    as [_ H].
  apply (H " "). vm_compute. reflexivity.
Defined.

Lemma unclassified_error_is_shown_verbatim_witness :
  diagnostic "API key expired. Please renew the API key." =
  "❌ Error: API key expired. Please renew the API key."
  +:+ nl +:+ join nl quick_fix_checklist.
Proof.
  assert (Hk : py_in "api key"
                 (lower "API key expired. Please renew the API key.") = true)
    by (vm_compute; reflexivity).
  rewrite (unclassified_error_is_shown_verbatim
             "API key expired. Please renew the API key.")
    by (vm_compute; reflexivity).
  now rewrite Hk.
Defined.

Lemma classified_errors_get_fixed_texts_witness :
  diagnostic "API key not valid. Please pass a valid API key."
    = join nl (invalid_key_details ++ quick_fix_checklist) /\
  diagnostic "403 The caller does not have permission"
    = join nl (permission_details ++ quick_fix_checklist) /\
  diagnostic "429 Resource exhausted" = join nl quota_details /\
  diagnostic "Billing account is disabled" = join nl billing_details.
Proof.
  split; [| split; [| split]].
  - destruct (classified_errors_get_fixed_texts
                "API key not valid. Please pass a valid API key.")
      as (H & _).
    apply H. vm_compute. reflexivity.
  - destruct (classified_errors_get_fixed_texts
                "403 The caller does not have permission")
      as (_ & H & _).
    apply H; vm_compute; reflexivity.
  - destruct (classified_errors_get_fixed_texts "429 Resource exhausted")
      as (_ & _ & H & _).
    apply H; vm_compute; reflexivity.
  - destruct (classified_errors_get_fixed_texts "Billing account is disabled")
      as (_ & _ & _ & H).
    apply H; vm_compute; reflexivity.
Defined.

End AnalyzerMoreSamples.

(* ===================================================================== *)
(* Properties of the API key handling                                    *)
(* ===================================================================== *)

Section ApiKey.

Import PyStr PyStrFacts Config StripFacts ConfigFacts MoreSamples.

(** X14: a GOOGLE_API_KEY that is not set, is empty, or holds nothing but
    white space stops the start-up with the "not set" error of lines
    20-29. *)
Theorem blank_key_is_not_set :
  load_api_key None = Exc (RuntimeError key_not_set_message) /\
  (forall v, all_space v = true ->
             load_api_key (Some v) = Exc (RuntimeError key_not_set_message)).
Proof.
  split; [reflexivity |].
  intros v Hv. unfold load_api_key.
  destruct (truthy v) eqn:Ht.
  - unfold normalize_key. rewrite (strip_all_space v Hv). reflexivity.
  - now rewrite Ht.
Qed.

Lemma blank_key_is_not_set_witness :
  load_api_key (Some (utf8 " " +:+ nl)) = Exc (RuntimeError key_not_set_message).
Proof.
  destruct blank_key_is_not_set as [_ H].
  apply (H (utf8 " " +:+ nl)). vm_compute. reflexivity.
Defined.

(** X15: a key that neither begins nor ends with white space, a double
    quote or a single quote is kept exactly as it is. *)
Theorem clean_key_is_kept (v : str) :
  clean_ends v = true -> load_api_key (Some v) = Val v.
Proof.
  intros H. unfold load_api_key.
  rewrite (clean_ends_truthy v H), (normalize_clean v H).
  now rewrite (clean_ends_truthy v H).
Qed.

Lemma clean_key_is_kept_witness :
  load_api_key (Some (utf8 "AIzaSyA-1234567890abcdef"))
    = Val (utf8 "AIzaSyA-1234567890abcdef").
Proof.
  apply (clean_key_is_kept "AIzaSyA-1234567890abcdef").
  vm_compute. reflexivity.
Defined.

(** X16: a key written between two double quotes or between two single
    quotes, with white space around the quotes, is unwrapped: the key
    kept is what stands between the quotes, when that has clean ends. *)
Theorem quoted_key_is_unwrapped (l r q k : str) :
  all_space l = true ->
  all_space r = true ->
  q = dquote \/ q = squote ->
  clean_ends k = true ->
  load_api_key (Some (l +:+ (q +:+ k +:+ q) +:+ r)) = Val k.
Proof.
  intros Hl Hr Hq Hk.
  destruct (clean_ends_parts k Hk) as (a & b & Ha & Hb & Hka & Hkb).
  destruct (key_char_parts a Hka) as (_ & Had & Has).
  destruct (key_char_parts b Hkb) as (_ & Hbd & Hbs).
  assert (Hn : normalize_key (l +:+ (q +:+ k +:+ q) +:+ r) = k).
  { unfold normalize_key. rewrite strip_strip_by.
    rewrite all_space_all_by in Hl, Hr.
    destruct Hq as [-> | ->]; unfold strip_chars, dquote, squote in *.
    - destruct (quoted_ends 34%N k) as [Hf Hlast].
      rewrite (strip_by_wrapped is_space l _ r _ _ Hl Hr Hf eq_refl Hlast eq_refl).
      rewrite (strip_by_wrapped (in_chars [34%N]) [34%N] k [34%N] a b
                 eq_refl eq_refl Ha Had Hb Hbd).
      rewrite (lstrip_by_first _ _ _ Ha Has).
      apply (rstrip_by_last _ _ _ Hb Hbs).
    - destruct (quoted_ends 39%N k) as [Hf Hlast].
      rewrite (strip_by_wrapped is_space l _ r _ _ Hl Hr Hf eq_refl Hlast eq_refl).
      rewrite (lstrip_by_first (in_chars [34%N]) _ _ Hf eq_refl).
      rewrite (rstrip_by_last (in_chars [34%N]) _ _ Hlast eq_refl).
      apply (strip_by_wrapped (in_chars [39%N]) [39%N] k [39%N] a b
               eq_refl eq_refl Ha Has Hb Hbs). }
  unfold load_api_key.
  assert (Ht : truthy (l +:+ (q +:+ k +:+ q) +:+ r) = true).
  { destruct l as [|c l]; [| reflexivity].
    destruct Hq as [-> | ->]; reflexivity. }
  rewrite Ht, Hn. now rewrite (clean_ends_truthy k Hk).
Qed.

Lemma quoted_key_is_unwrapped_witness :
  load_api_key (Some pasted_key) = Val (utf8 "AIzaSyA-1234567890abcdef").
Proof.
  apply (quoted_key_is_unwrapped " " nl dquote "AIzaSyA-1234567890abcdef").
  - vm_compute. reflexivity.
  - vm_compute. reflexivity.
  - left. reflexivity.
  - vm_compute. reflexivity.
Defined.

(** X17: the key preview of the diagnostics panel never shows the whole
    key: for a key of more than eight characters it is the first four
    characters, three dots and the last four, eleven characters whatever
    the length of the key, and at least one character in between is left
    out; for a shorter key it is three asterisks. *)
Theorem key_preview_hides_the_middle (k : str) :
  (8 < length k ->
   exists a m b,
     k = a +:+ m +:+ b /\
     length a = 4 /\ length b = 4 /\ m <> [] /\
     masked_key k = a +:+ "..." +:+ b /\
     length (masked_key k) = 11) /\
  (length k <= 8 -> masked_key k = "***").
Proof.
  split.
  - intros Hlen.
    set (n := length k) in *.
    exists (py_take 4 k), (py_take (n - 8) (py_drop 4 k)), (py_last 4 k).
    assert (Hlast : py_last 4 k = py_drop (n - 8) (py_drop 4 k)).
    { unfold py_last. rewrite py_drop_drop. fold n. f_equal. lia. }
    assert (Ha : length (py_take 4 k) = 4)
      by (apply py_take_length; fold n; lia).
    assert (Hb : length (py_last 4 k) = 4).
    { unfold py_last. rewrite py_drop_length. fold n. lia. }
    assert (Hm : length (py_take (n - 8) (py_drop 4 k)) = n - 8).
    { apply py_take_length. rewrite py_drop_length. fold n. lia. }
    assert (Hmask : masked_key k = py_take 4 k +:+ "..." +:+ py_last 4 k).
    { unfold masked_key. fold n.
      destruct (Nat.ltb_spec 8 n); [reflexivity | lia]. }
    repeat split.
    + rewrite Hlast, py_take_drop, py_take_drop. reflexivity.
    + exact Ha.
    + exact Hb.
    + intros E. rewrite E in Hm. cbn in Hm. lia.
    + exact Hmask.
    + rewrite Hmask, !List.length_app, Ha, Hb. reflexivity.
  - intros Hlen. unfold masked_key.
    destruct (Nat.ltb_spec 8 (length k)); [lia | reflexivity].
Qed.

Lemma key_preview_hides_the_middle_witness :
  masked_key "AIzaSyA-1234567890abcdef" = "AIza...cdef" /\
  masked_key "AIzaSyA-" = "***" /\
  masked_key "AIzaé123" = "***".
Proof.
  split; [| split].
  - destruct (key_preview_hides_the_middle "AIzaSyA-1234567890abcdef")
      as [H _].
    destruct (H ltac:(vm_compute; lia)) as (a & m & b & _ & _ & _ & _ & _ & _).
    vm_compute. reflexivity.
  - destruct (key_preview_hides_the_middle "AIzaSyA-") as [_ H].
    apply H. vm_compute. lia.
  - destruct (key_preview_hides_the_middle "AIzaé123") as [_ H].
    apply H. vm_compute. lia.
Defined.

End ApiKey.

(* ===================================================================== *)
(* Properties of the analysis section of the page                        *)
(* ===================================================================== *)

Section AnalysisSection.

Import PyStr PyStrFacts Extract ExtractFacts Observe ObserveFacts Select
  SelectFacts Analyze AnalyzeFacts Config StripFacts Page Samples MoreSamples.

Variable repr_list : list str -> str.
Variable repr_dict : gmap string str -> str.

(** X18: when neither stage of the extraction gathers anything but white
    space, pressing "Analyze Resume" makes no remote call, and the page
    takes the success path: it shows "Analysis complete!" and the
    {"error": ...} value as the analysis, and no st.error line. *)
Theorem unreadable_resume_is_reported_as_complete
    (pdf : pdf_file) (env : remote) (jd : str) :
  strip (stage1_text pdf) = [] ->
  strip (stage2_text pdf) = [] ->
  exists r,
    press_analyze repr_list repr_dict pdf env jd = Val r /\
    remote_calls r = [] /\
    head (shown r) = Some (UiSuccess "✨ Analysis complete!") /\
    In (UiShow (RDict {[ "error" := ("Resume text is required for analysis." : str) ]}))
       (shown r) /\
    existsb is_error (shown r) = false.
Proof.
  intros H1 H2. unfold press_analyze. rewrite run_closed_form.
  assert (Hf : fast_path pdf = false).
  { unfold fast_path. rewrite H1. now destruct (stage1_error pdf). }
  assert (Hs : strip (stage1_text pdf +:+ stage2_text pdf) = []).
  { apply strip_empty_iff. rewrite all_space_app.
    apply strip_empty_iff in H1, H2. now rewrite H1, H2. }
  assert (Ha : Analyze.run repr_list env [] (Some jd)
               = ([], Val (RDict {[ "error" := ("Resume text is required for analysis." : str) ]})))
    by reflexivity.
  rewrite Hf, Hs. unfold on_analyze. rewrite Ha.
  eexists. split; [reflexivity |]. cbn [remote_calls shown head].
  split; [reflexivity |]. split; [reflexivity |].
  split; [do 3 right; left; reflexivity | reflexivity].
Qed.

(** X19: when the generation request raises, the page shows exactly one
    thing: an st.error line made of "Analysis failed: " (after the cross
    mark) and the diagnostic of analyze_resume; no download is offered. *)
Theorem generation_error_reaches_the_screen
    (env : remote) (resume_text jd e : str) :
  truthy resume_text = true ->
  GenerativeModel env (selected env None) = None ->
  generate_content env (selected env None)
    (compose_prompt resume_text (Some jd)) = inl e ->
  snd (on_analyze repr_list repr_dict env resume_text jd)
    = [UiError ("❌ Analysis failed: " +:+ diagnostic e)].
Proof.
  intros Hres Hinit Hgen. unfold on_analyze.
  rewrite (analyze_run _ _ _ _ Hres). cbv zeta. now rewrite Hinit, Hgen.
Qed.

(** X20: for a file with a text layer (every page is read and the
    trimmed layers are not empty) and a job description that is not
    empty, pressing the button never renders the file for OCR, and the
    prompt of the generation request is the resume block around the
    trimmed text layers followed by the job-description block. *)
Theorem text_layer_reaches_the_prompt
    (pdf : pdf_file) (pages : list page) (env : remote) (jd : str) :
  pdfplumber_open pdf = inr pages ->
  Forall page_returns pages ->
  strip (text_layers pages) <> [] ->
  truthy jd = true ->
  GenerativeModel env (selected env None) = None ->
  exists r,
    press_analyze repr_list repr_dict pdf env jd = Val r /\
    count is_convert (extraction r) = 0 /\
    remote_calls r =
      [CallListModels;
       CallGenerativeModel (selected env None);
       CallGenerateContent (selected env None)
         (resume_block (strip (text_layers pages)) +:+ job_block jd)].
Proof.
  intros Hopen Hret Hne Hjd Hinit.
  assert (Ht : truthy (strip (text_layers pages)) = true)
    by now apply truthy_true_iff.
  assert (Hf : fast_path pdf = true).
  { unfold fast_path, stage1_error, stage1_text. rewrite Hopen.
    now rewrite (direct_error_none _ Hret), (direct_text_layers _ Hret). }
  assert (Hs : stage1_text pdf = text_layers pages).
  { unfold stage1_text. rewrite Hopen. now apply direct_text_layers. }
  assert (Hp : compose_prompt (strip (text_layers pages)) (Some jd)
               = resume_block (strip (text_layers pages)) +:+ job_block jd).
  { unfold compose_prompt, jd_truthy. now rewrite Hjd. }
  unfold press_analyze, on_analyze. rewrite run_closed_form, Hf, Hs.
  rewrite (analyze_run _ _ _ _ Ht). cbv zeta. rewrite Hinit, Hp.
  destruct (generate_content env (selected env None)
              (resume_block (strip (text_layers pages)) +:+ job_block jd))
    as [e | r]; [| destruct (analysis_of r)];
    eexists; (split; [reflexivity |]); cbn [extraction remote_calls log];
    (split; [| reflexivity]);
    rewrite count_stage1; try reflexivity; intros; reflexivity.
Qed.


(** X22: when the generation request answers and reading response.text
    raises (line 545 is outside every try of analyze_resume), the
    exception leaves analyze_resume as it is, after the three remote
    calls, and the page shows one st.error line with its text: no
    analysis, no download. *)
Theorem unreadable_answer_reaches_the_screen
    (env : remote) (resume_text jd e : str) (resp : response) :
  truthy resume_text = true ->
  GenerativeModel env (selected env None) = None ->
  generate_content env (selected env None)
    (compose_prompt resume_text (Some jd)) = inr resp ->
  resp_text resp = TextRaises e ->
  Analyze.run repr_list env resume_text (Some jd)
    = ([CallListModels;
        CallGenerativeModel (selected env None);
        CallGenerateContent (selected env None)
          (compose_prompt resume_text (Some jd))],
       Exc (External e)) /\
  snd (on_analyze repr_list repr_dict env resume_text jd)
    = [UiError ("❌ Analysis failed: " +:+ e)].
Proof.
  intros Hres Hinit Hgen Htext. unfold on_analyze.
  rewrite (analyze_run _ _ _ _ Hres). cbv zeta. rewrite Hinit, Hgen.
  unfold analysis_of. rewrite Htext. split; reflexivity.
Qed.

End AnalysisSection.

Section AnalysisSectionSamples.

Import PyStr Extract Select Analyze Config Page Observe Samples MoreSamples.

Lemma unreadable_resume_is_reported_as_complete_witness :
  exists r,
    press_analyze no_repr no_repr_dict blank_pdf
      (failing_service listing_raises "unused") [] = Val r /\
    remote_calls r = [] /\
    head (shown r) = Some (UiSuccess "✨ Analysis complete!") /\
    In (UiShow (RDict {[ "error" := ("Resume text is required for analysis." : str) ]}))
       (shown r) /\
    existsb is_error (shown r) = false.
Proof.
  apply (unreadable_resume_is_reported_as_complete no_repr no_repr_dict
           blank_pdf (failing_service listing_raises "unused") []);
    vm_compute; reflexivity.
Defined.

Lemma generation_error_reaches_the_screen_witness :
  snd (on_analyze no_repr no_repr_dict
         (failing_service listing_raises "Connection timed out")
         "5 years Python, AWS, Docker" [])
  = [UiError "❌ Analysis failed: ❌ Error: Connection timed out"].
Proof.
  rewrite (generation_error_reaches_the_screen no_repr no_repr_dict
             (failing_service listing_raises "Connection timed out")
             "5 years Python, AWS, Docker" [] "Connection timed out")
    by (vm_compute; reflexivity).
  vm_compute. reflexivity.
Defined.

Lemma text_layer_reaches_the_prompt_witness :
  exists r,
    press_analyze no_repr no_repr_dict text_pdf
      (answering_service listing_raises "Strong match") "Backend engineer"
      = Val r /\
    count is_convert (extraction r) = 0 /\
    remote_calls r =
      [CallListModels;
       CallGenerativeModel
         (selected (answering_service listing_raises "Strong match") None);
       CallGenerateContent
         (selected (answering_service listing_raises "Strong match") None)
         (resume_block
            (strip (text_layers [PageText (Some (utf8 "Jane Doe "));
                                 PageText None;
                                 PageText (Some (utf8 "Python, AWS"))]))
          +:+ job_block "Backend engineer")].
Proof.
  apply (text_layer_reaches_the_prompt no_repr no_repr_dict text_pdf
           [PageText (Some (utf8 "Jane Doe ")); PageText None;
            PageText (Some (utf8 "Python, AWS"))]
           (answering_service listing_raises "Strong match")
           "Backend engineer").
  - vm_compute. reflexivity.
  - repeat (constructor; [eexists; reflexivity |]). constructor.
  - vm_compute. discriminate.
  - vm_compute. reflexivity.
  - vm_compute. reflexivity.
Defined.


Lemma unreadable_answer_reaches_the_screen_witness :
  snd (on_analyze no_repr no_repr_dict blocked_service
         "5 years Python, AWS, Docker" "Backend engineer")
  = [UiError "❌ Analysis failed: The response holds no text"].
Proof.
  destruct (unreadable_answer_reaches_the_screen no_repr no_repr_dict
              blocked_service "5 years Python, AWS, Docker" "Backend engineer"
              "The response holds no text"
              {| resp_text := TextRaises "The response holds no text";
                 resp_str := "response" |}
              eq_refl eq_refl eq_refl eq_refl) as [_ H].
  rewrite H. vm_compute. reflexivity.
Defined.

End AnalysisSectionSamples.
